(** * HDVP filelist generator: [scripts/generate_filelist.py]

    A shallow embedding of the script together with the part of the
    operating system it talks to (a POSIX directory tree, the current
    working directory and a clock), followed by the properties of the
    three artefacts it writes: [filelist.f], [compile_options.txt] and
    [project_metadata.json]. *)

From Stdlib Require Import ZArith Ascii.
From stdpp Require Import base strings list sorting gmap pretty.

Set Warnings "-register-all,-clear-no-such-hyp".

(** ** Strings and path names *)

(** [str.startswith] and [str.endswith]. *)
Fixpoint startswith (s pre : string) : bool :=
  match pre, s with
  | EmptyString, _ => true
  | String a pre', String b s' => Ascii.eqb a b && startswith s' pre'
  | String _ _, EmptyString => false
  end.

Definition endswith (s suf : string) : bool :=
  startswith (String.rev s) (String.rev suf).

Definition sep : ascii := "/"%char.

(** [s.split('/')]: never empty, the pieces contain no separator. *)
Fixpoint split_path (s : string) : list string :=
  match s with
  | EmptyString => [""]
  | String c s' =>
      if Ascii.eqb c sep then "" :: split_path s'
      else match split_path s' with
           | x :: xs => String c x :: xs
           | [] => [String c ""]
           end
  end.

(** ['/'.join(l)]. *)
Fixpoint join_sep (l : list string) : string :=
  match l with
  | [] => ""
  | [x] => x
  | x :: l' => x +:+ "/" +:+ join_sep l'
  end.

(** [posixpath.join] with two arguments. *)
Definition os_path_join (a b : string) : string :=
  if startswith b "/" then b
  else if String.eqb a "" || endswith a "/" then a +:+ b
  else a +:+ "/" +:+ b.

(** Truthiness of a Python [str]. *)
Definition truthy (s : string) : bool := negb (String.eqb s "").

(** ** The file system *)

(** What [json.dump] serialises; member order is the insertion order of
    the dict. *)
Inductive json :=
| JNull
| JNumber (z : Z)
| JString (s : string)
| JArray (l : list json)
| JObject (members : list (string * json)).

(** The bytes of a file: text written by [f.write], or the document
    [json.dump] put there. *)
Inductive data :=
| Text (s : string)
| Json (j : json).

(** A directory keeps its entries in the order [os.scandir] lists them.
    Anything that is not a directory is a [File]. [ctime] is the stamp
    [os.path.getctime] reads; the stamp of a directory is set when the
    directory is made and not maintained afterwards (the script never
    reads one). *)
Inductive node :=
| File (ctime : Z) (d : data)
| Dir (ctime : Z) (entries : list (string * node)).

Record world := World {
  root : node;
  cwd : list string;
  clock : Z
}.

Fixpoint find_entry (name : string) (es : list (string * node)) : option node :=
  match es with
  | [] => None
  | (n, x) :: es' => if String.eqb n name then Some x else find_entry name es'
  end.

Fixpoint lookup_node (n : node) (p : list string) : option node :=
  match p with
  | [] => Some n
  | c :: p' =>
      match n with
      | Dir _ es =>
          match find_entry c es with
          | Some x => lookup_node x p'
          | None => None
          end
      | File _ _ => None
      end
  end.

Definition is_dir (o : option node) : bool :=
  match o with Some (Dir _ _) => true | _ => false end.

(** Replace the entry [name] (never a directory) or append a new one. *)
Fixpoint put_entry (name : string) (x : node) (es : list (string * node))
  : option (list (string * node)) :=
  match es with
  | [] => Some [(name, x)]
  | (n, y) :: es' =>
      if String.eqb n name then
        match y with
        | Dir _ _ => None
        | File _ _ => Some ((n, x) :: es')
        end
      else cons (n, y) <$> put_entry name x es'
  end.

Fixpoint update_entry (name : string) (f : node → option node)
    (es : list (string * node)) : option (list (string * node)) :=
  match es with
  | [] => None
  | (n, y) :: es' =>
      if String.eqb n name then (λ y', (n, y') :: es') <$> f y
      else cons (n, y) <$> update_entry name f es'
  end.

(** Put [x] at the component path [p]: every proper prefix of [p] must be
    a directory and [p] itself must not be one. *)
Fixpoint insert_node (n : node) (p : list string) (x : node) : option node :=
  match p with
  | [] => None
  | c :: p' =>
      match n with
      | File _ _ => None
      | Dir t es =>
          match p' with
          | [] => Dir t <$> put_entry c x es
          | _ :: _ => Dir t <$> update_entry c (λ y, insert_node y p' x) es
          end
      end
  end.

(** Path resolution as the kernel does it, one component at a time: the
    place reached so far must be a directory before the next component is
    taken, so [missing/..] and [file/.] do not resolve. The last component
    itself may be absent. [stack] is the reversed list of names from the
    root. *)
Definition step_component (stack : list string) (c : string) : list string :=
  if String.eqb c "" || String.eqb c "." then stack
  else if String.eqb c ".." then tail stack
  else c :: stack.

Fixpoint resolve_from (r : node) (stack : list string) (cs : list string)
  : option (list string) :=
  match cs with
  | [] => Some (rev stack)
  | c :: cs' =>
      if is_dir (lookup_node r (rev stack))
      then resolve_from r (step_component stack c) cs'
      else None
  end.

Definition resolve (w : world) (p : string) : option (list string) :=
  if String.eqb p "" then None
  else resolve_from (root w)
         (if startswith p "/" then [] else rev (cwd w)) (split_path p).

Definition stat (w : world) (p : string) : option node :=
  q ← resolve w p; lookup_node (root w) q.

(** [os.path.exists]. *)
Definition os_path_exists (w : world) (p : string) : bool :=
  bool_decide (is_Some (stat w p)).

Definition node_ctime (n : node) : Z :=
  match n with File t _ => t | Dir t _ => t end.

Definition node_is_dir (n : node) : bool :=
  match n with Dir _ _ => true | File _ _ => false end.

(** The two name lists [os.walk] builds from one [scandir] pass. *)
Definition dirnames (es : list (string * node)) : list string :=
  omap (λ e, if node_is_dir e.2 then Some e.1 else None) es.

Definition filenames (es : list (string * node)) : list string :=
  omap (λ e, if node_is_dir e.2 then None else Some e.1) es.

(** [os.walk(top)], top-down, errors ignored: the triple of the directory
    itself, then the walk of each sub-directory in listing order. A
    [File] child contributes nothing, which is the same as not descending
    into it. *)
Fixpoint walk_node (top : string) (n : node)
  : list (string * list string * list string) :=
  match n with
  | File _ _ => []
  | Dir _ es =>
      (top, dirnames es, filenames es) ::
      (fix sub (l : list (string * node)) :=
         match l with
         | [] => []
         | e :: l' => walk_node (os_path_join top e.1) e.2 ++ sub l'
         end) es
  end.

Definition os_walk (w : world) (top : string)
  : list (string * list string * list string) :=
  match stat w top with
  | Some n => walk_node top n
  | None => []
  end.

(** The non-empty components of [os.path.abspath(p)]: [normpath] of the
    path joined to the working directory, a purely lexical operation. *)
Definition abspath_parts (w : world) (p : string) : list string :=
  rev (foldl step_component
         (if startswith p "/" then [] else rev (cwd w)) (split_path p)).

Fixpoint common_prefix_len (a b : list string) : nat :=
  match a, b with
  | x :: a', y :: b' =>
      if String.eqb x y then S (common_prefix_len a' b') else 0%nat
  | _, _ => 0%nat
  end.

(** [os.path.relpath(path, start)] for a non-empty [path]. *)
Definition os_path_relpath (w : world) (path start : string) : string :=
  let start_list := abspath_parts w start in
  let path_list := abspath_parts w path in
  let i := common_prefix_len start_list path_list in
  let rel_list :=
    replicate (length start_list - i) ".." ++ drop i path_list in
  match rel_list with
  | [] => "."
  | _ :: _ => join_sep rel_list
  end.

(** Exceptions: every failure of the model is an [OSError] on a path. *)
Inductive exn := OSError (filename : string).

(** [str(e)]; the errno text is not told apart. *)
Definition str_exn (e : exn) : string :=
  match e with
  | OSError p => "[Errno 2] No such file or directory: '" +:+ p +:+ "'"
  end.

(** [with open(p, 'w') as f: ...] with everything written to [f] collected
    in [d]: the file is created or truncated, stamped with the clock, and
    the clock moves on. *)
Definition open_w (p : string) (d : data) (w : world) : exn + world :=
  match resolve w p with
  | None => inl (OSError p)
  | Some q =>
      if is_dir (lookup_node (root w) q) then inl (OSError p)
      else match insert_node (root w) q (File (clock w) d) with
           | Some r => inr (World r (cwd w) (clock w + 1))
           | None => inl (OSError p)
           end
  end.

(** [os.path.getctime]. *)
Definition os_path_getctime (w : world) (p : string) : exn + Z :=
  match stat w p with
  | Some n => inr (node_ctime n)
  | None => inl (OSError p)
  end.

(** [os.makedirs(p, exist_ok=True)]: the components are taken in order and
    every missing directory on the way is made. The flag tells whether
    the call got through; the directories made before a failure stay. *)
Fixpoint makedirs_from (r : node) (now : Z) (stack cs : list string)
  : node * bool :=
  match cs with
  | [] => (r, true)
  | c :: cs' =>
      let stack' := step_component stack c in
      match lookup_node r (rev stack') with
      | Some (Dir _ _) => makedirs_from r now stack' cs'
      | Some (File _ _) => (r, false)
      | None =>
          match insert_node r (rev stack') (Dir now []) with
          | Some r' => makedirs_from r' now stack' cs'
          | None => (r, false)
          end
      end
  end.

(** [sorted] on strings: the order is total and antisymmetric, so the
    result is the one sorted arrangement whatever the algorithm. *)
Definition sorted (l : list string) : list string := merge_sort String.le l.

(** ** The process: a world, standard output, and exceptions *)

Record process := Process {
  fs : world;
  stdout : list string
}.

Definition M (A : Type) : Type := process → (exn + A) * process.

#[global] Instance M_ret : MRet M := λ A a s, (inr a, s).

#[global] Instance M_bind : MBind M := λ A B f m s,
  match m s with
  | (inr a, s') => f a s'
  | (inl e, s') => (inl e, s')
  end.

Definition get_world : M world := λ s, (inr (fs s), s).

Definition lift_os (f : world → exn + world) : M unit := λ s,
  match f (fs s) with
  | inr w' => (inr tt, Process w' (stdout s))
  | inl e => (inl e, s)
  end.

Definition lift_res {A} (r : exn + A) : M A := λ s, (r, s).

Definition print (line : string) : M unit := λ s,
  (inr tt, Process (fs s) (stdout s ++ [line])).

(** [os.makedirs(p, exist_ok=True)] as a step of the process. *)
Definition os_makedirs (p : string) : M unit := λ s,
  let w := fs s in
  if String.eqb p "" then (inl (OSError p), s)
  else
    let res := makedirs_from (root w) (clock w)
                 (if startswith p "/" then [] else rev (cwd w))
                 (split_path p) in
    (if res.2 then inr tt else inl (OSError p),
     Process (World res.1 (cwd w) (clock w + 1)) (stdout s)).

(** ** The script *)

Definition LF : string := String (ascii_of_nat 10) "".

(** What a [for x in l: f.write(f"{x}\n")] loop leaves in the file. *)
Definition write_lines (l : list string) : string :=
  String.concat "" ((λ x, x +:+ LF) <$> l).

(** [any(filename.endswith(ext) for ext in extensions)] *)
Definition has_extension (extensions : list string) (filename : string) : bool :=
  existsb (endswith filename) extensions.

(** [scan_directory(directory, extensions, relative_to=None)] *)
Definition scan_directory (w : world) (directory : string)
    (extensions : list string) (relative_to : option string) : list string :=
  if negb (os_path_exists w directory) then []
  else
    t ← os_walk w directory;
    filename ← List.filter (has_extension extensions) t.2;
    let file_path := os_path_join t.1.1 filename in
    [match relative_to with
     | Some r => if truthy r then os_path_relpath w file_path r else file_path
     | None => file_path
     end].

Definition verilog_extensions : list string := [".v"; ".sv"].
Definition include_extensions : list string := [".vh"; ".svh"].

(** Lines 39-45, 47-50 and 52-56 of [generate_filelist]: the three scans. *)
Definition scan_src (w : world) (project_path job_path : string) : list string :=
  let src_dir := os_path_join project_path "src" in
  if os_path_exists w src_dir
  then scan_directory w src_dir verilog_extensions (Some job_path)
  else [].

Definition scan_tb (w : world) (project_path job_path : string) : list string :=
  let tb_dir := os_path_join project_path "tb" in
  if os_path_exists w tb_dir
  then scan_directory w tb_dir verilog_extensions (Some job_path)
  else [].

Definition scan_includes (w : world) (project_path job_path : string)
  : list string :=
  let src_dir := os_path_join project_path "src" in
  let include_dir := os_path_join project_path "include" in
  (if os_path_exists w src_dir
   then scan_directory w src_dir include_extensions (Some job_path)
   else []) ++
  (if os_path_exists w include_dir
   then scan_directory w include_dir include_extensions (Some job_path)
   else []).

(** Lines 61-68: the text of [filelist.f]. *)
Definition filelist_text (src_files tb_files : list string) : string :=
  write_lines (sorted src_files ++ sorted tb_files).

(** Lines 70-82: the set of include directories. *)
Definition collect_include_dirs (w : world) (project_path job_path : string)
  : gset string :=
  let src_dir := os_path_join project_path "src" in
  let include_dir := os_path_join project_path "include" in
  (if os_path_exists w src_dir then
     {[ os_path_relpath w src_dir job_path ]} ∪
     list_to_set
       ((λ t, os_path_relpath w t.1.1 job_path) <$>
        List.filter (λ t, existsb (has_extension include_extensions) t.2)
          (os_walk w src_dir))
   else ∅) ∪
  (if os_path_exists w include_dir
   then {[ os_path_relpath w include_dir job_path ]}
   else ∅).

(** Lines 86-88: the text of [compile_options.txt]. *)
Definition compile_options_text (include_dirs : gset string) : string :=
  write_lines ((λ inc_dir, "+incdir+" +:+ inc_dir) <$> sorted (elements include_dirs)).

(** Lines 91-100: the metadata dict. [list(include_dirs)] iterates the set
    in an order Python does not specify; [elements] is one such order. *)
Definition metadata (project_path job_path : string)
    (src_files tb_files include_files : list string)
    (include_dirs : gset string) (generated_at : option Z) : json :=
  JObject
    [("project_path", JString project_path);
     ("job_path", JString job_path);
     ("src_files", JArray (JString <$> src_files));
     ("tb_files", JArray (JString <$> tb_files));
     ("include_files", JArray (JString <$> include_files));
     ("include_dirs", JArray (JString <$> elements include_dirs));
     ("total_files", JNumber (Z.of_nat (length src_files + length tb_files)));
     ("generated_at", from_option JNumber JNull generated_at)].

(** Line 99: the value of ['generated_at']. *)
Definition generated_at_of (filelist_path : string) : M (option Z) :=
  w ← get_world;
  if os_path_exists w filelist_path
  then t ← lift_res (os_path_getctime w filelist_path); mret (Some t)
  else mret None.

(** [generate_filelist(project_path, job_path)] *)
Definition generate_filelist (project_path job_path : string) : M string :=
  w0 ← get_world;
  let src_files := scan_src w0 project_path job_path in
  let tb_files := scan_tb w0 project_path job_path in
  let include_files := scan_includes w0 project_path job_path in
  let filelist_path := os_path_join job_path "filelist.f" in
  lift_os (open_w filelist_path (Text (filelist_text src_files tb_files)));;
  w1 ← get_world;
  let include_dirs := collect_include_dirs w1 project_path job_path in
  let compile_opts_path := os_path_join job_path "compile_options.txt" in
  lift_os (open_w compile_opts_path (Text (compile_options_text include_dirs)));;
  generated_at ← generated_at_of filelist_path;
  let metadata_path := os_path_join job_path "project_metadata.json" in
  lift_os (open_w metadata_path
             (Json (metadata project_path job_path src_files tb_files
                      include_files include_dirs generated_at)));;
  print ("Generated filelist.f with " +:+ pretty (length src_files) +:+
         " source files and " +:+ pretty (length tb_files) +:+
         " testbench files");;
  print ("Include directories: " +:+
         String.concat ", " (sorted (elements include_dirs)));;
  mret filelist_path.

Definition usage : list string :=
  ["Usage: generate_filelist.py <project_path> <job_path>";
   "  project_path: Path to the project directory containing src/, tb/, etc.";
   "  job_path: Path to the job run directory where filelist.f will be created"].

(** [main()] on [sys.argv]; the result is the exit status of the process.
    An exception of [os.makedirs] is not caught: the interpreter prints a
    traceback on standard error and exits with status 1. *)
Definition main (argv : list string) (s : process) : Z * process :=
  match argv with
  | [_; project_path; job_path] =>
      if negb (os_path_exists (fs s) project_path) then
        (1%Z, Process (fs s)
                (stdout s ++
                 ["Error: Project path '" +:+ project_path +:+ "' does not exist"]))
      else
        match (if negb (os_path_exists (fs s) job_path)
               then os_makedirs job_path else mret tt) s with
        | (inl _, s1) => (1%Z, s1)
        | (inr _, s1) =>
            match generate_filelist project_path job_path s1 with
            | (inr filelist_path, s2) =>
                (0%Z, Process (fs s2)
                        (stdout s2 ++ ["Successfully generated: " +:+ filelist_path]))
            | (inl e, s2) =>
                (1%Z, Process (fs s2)
                        (stdout s2 ++ ["Error generating filelist: " +:+ str_exn e]))
            end
        end
  | _ => (1%Z, Process (fs s) (stdout s ++ usage))
  end.

(** ** A sample project *)

Definition demo_root : node :=
  Dir 0
    [("proj",
      Dir 0
        [("src",
          Dir 0
            [("b.sv", File 1 (Text "")); ("a.v", File 1 (Text ""));
             ("pkg.svh", File 1 (Text ""));
             ("rtl", Dir 0 [("x.vh", File 1 (Text "")); ("y.vh", File 1 (Text ""));
                            ("c.v", File 1 (Text ""))])]);
         ("tb", Dir 0 [("top_tb.sv", File 1 (Text ""))]);
         ("include", Dir 0 [("defs.vh", File 1 (Text ""))])]);
     ("job", Dir 0 [])].

Definition demo : process := Process (World demo_root [] 10) [].

(** ** Reading the artefacts back *)

Definition read_file (w : world) (p : string) : option data :=
  match stat w p with
  | Some (File _ d) => Some d
  | _ => None
  end.

Fixpoint assoc (key : string) (l : list (string * json)) : option json :=
  match l with
  | [] => None
  | (k, v) :: l' => if String.eqb k key then Some v else assoc key l'
  end.

(** The member [key] of the JSON object stored in the file [p]. *)
Definition json_field (w : world) (p key : string) : option json :=
  match read_file w p with
  | Some (Json (JObject members)) => assoc key members
  | _ => None
  end.

Definition filelist_f (job_path : string) : string :=
  os_path_join job_path "filelist.f".
Definition compile_options_txt (job_path : string) : string :=
  os_path_join job_path "compile_options.txt".
Definition project_metadata_json (job_path : string) : string :=
  os_path_join job_path "project_metadata.json".

(** The files a scan discovers, as (directory, name) pairs in traversal
    order, and the path recorded for each. *)
Definition discovered (w : world) (directory : string)
    (extensions : list string) : list (string * string) :=
  t ← os_walk w directory;
  filename ← List.filter (has_extension extensions) t.2;
  [(t.1.1, filename)].

Definition recorded_path (w : world) (job_path : string)
    (f : string * string) : string :=
  let file_path := os_path_join f.1 f.2 in
  if truthy job_path then os_path_relpath w file_path job_path else file_path.

(** ** Notions the statements are written in *)

(** A name as [scandir] or the script itself supplies it: one component,
    and neither empty nor a dot entry. *)
Definition simple_name (c : string) : bool :=
  bool_decide (split_path c = [c]) &&
  negb (String.eqb c "" || String.eqb c "." || String.eqb c "..").

(** Stamp and contents of the regular file at a place of the tree. *)
Definition file_at (r : node) (p : list string) : option (Z * data) :=
  match lookup_node r p with
  | Some (File t d) => Some (t, d)
  | _ => None
  end.

(** The walks of the entries of a directory, one after the other. *)
Definition walk_children (top : string) (es : list (string * node))
  : list (string * list string * list string) :=
  e ← es; walk_node (os_path_join top e.1) e.2.

(** What a scan with the name filter [P] sees of a walk: each directory
    with those of its files that pass [P]. *)
Definition view (P : string → bool)
    (l : list (string * list string * list string))
  : list (string * list string) :=
  (λ t, (t.1.1, List.filter P t.2)) <$> l.

(** Stamp and contents of the regular file a path name leads to. *)
Definition stat_file (w : world) (p : string) : option (Z * data) :=
  q ← resolve w p; file_at (root w) q.

(** The double loop of a scan, run on a view. *)
Definition scan_view {A} (g : string → string → A)
    (l : list (string * list string)) : list A :=
  v ← l; filename ← v.2; [g v.1 filename].

(** [bool(l)] for a list. *)
Definition nonempty {A} (l : list A) : bool :=
  match l with [] => false | _ :: _ => true end.

(** The sub-directories of a project the script looks at. *)
Definition project_dirs : list string := ["src"; "tb"; "include"].

(** A file name whose appearance no scan notices. *)
Definition harmless (name : string) : bool :=
  simple_name name &&
  negb (has_extension verilog_extensions name) &&
  negb (has_extension include_extensions name) &&
  bool_decide (name ∉ project_dirs).

(** Two worlds in which the scans of a project see the same: the same
    working directory, and for each project directory the same existence
    and the same view under either extension list. *)
Definition scans_agree (project_path : string) (w w' : world) : Prop :=
  cwd w' = cwd w ∧
  ∀ sub, sub ∈ project_dirs →
    os_path_exists w' (os_path_join project_path sub) =
    os_path_exists w (os_path_join project_path sub) ∧
    ∀ exts, exts ∈ [verilog_extensions; include_extensions] →
      view (has_extension exts) (os_walk w' (os_path_join project_path sub)) =
      view (has_extension exts) (os_walk w (os_path_join project_path sub)).

(** The three writes of a successful run and the worlds between them. *)
Inductive run (project_path job_path : string) (s s' : process) : Prop :=
| Run (w1 w2 : world) :
    let src_files := scan_src (fs s) project_path job_path in
    let tb_files := scan_tb (fs s) project_path job_path in
    let include_files := scan_includes (fs s) project_path job_path in
    let include_dirs := collect_include_dirs w1 project_path job_path in
    let generated_at := node_ctime <$> stat w2 (filelist_f job_path) in
    open_w (filelist_f job_path)
      (Text (filelist_text src_files tb_files)) (fs s) = inr w1 →
    open_w (compile_options_txt job_path)
      (Text (compile_options_text include_dirs)) w1 = inr w2 →
    open_w (project_metadata_json job_path)
      (Json (metadata project_path job_path src_files tb_files
               include_files include_dirs generated_at)) w2 = inr (fs s') →
    run project_path job_path s s'.

(** The sample project after one run with the job directory [job]. *)
Definition demo_after : process :=
  Eval vm_compute in (generate_filelist "proj" "job" demo).2.

(** The lines of a text as a reader sees them: the pieces between line
    feeds, a last unterminated piece included. *)
Fixpoint text_lines (s : string) : list string :=
  match s with
  | EmptyString => []
  | String c s' =>
      if Ascii.eqb c (ascii_of_nat 10) then "" :: text_lines s'
      else match text_lines s' with
           | x :: xs => String c x :: xs
           | [] => [String c ""]
           end
  end.

(** Whether a string contains a line feed. *)
Fixpoint has_newline (s : string) : bool :=
  match s with
  | EmptyString => false
  | String c s' => Ascii.eqb c (ascii_of_nat 10) || has_newline s'
  end.

(** Whether [open(p, 'w')] succeeds; what is written plays no part. *)
Definition can_open_w (w : world) (p : string) : bool :=
  match open_w p (Text "") w with
  | inr _ => true
  | inl _ => false
  end.



(** The two lines [generate_filelist] prints when it got through. *)
Definition summary (src_files tb_files : list string)
    (include_dirs : gset string) : list string :=
  ["Generated filelist.f with " +:+ pretty (length src_files) +:+
   " source files and " +:+ pretty (length tb_files) +:+ " testbench files";
   "Include directories: " +:+
   String.concat ", " (sorted (elements include_dirs))].

(** The sample project with a directory where [compile_options.txt]
    should go. *)
Definition blocked : process :=
  Process
    (World
       (Dir 0
          [("proj",
            Dir 0 [("src", Dir 0 [("a.v", File 1 (Text ""))])]);
           ("job", Dir 0 [("compile_options.txt", Dir 0 []);
                          ("notes.txt", File 3 (Text "keep"))])])
       [] 10)
    [].

(** A project directory with nothing in it. *)
Definition hollow : process :=
  Process (World (Dir 0 [("proj", Dir 0 []); ("job", Dir 0 [])]) [] 10) [].

(** A project in which [src] is a regular file. *)
Definition odd : process :=
  Process
    (World (Dir 0 [("proj", Dir 0 [("src", File 1 (Text ""))]);
                   ("job", Dir 0 [])]) [] 10)
    [].

(** [w'] differs from [w] at most in the regular files at [paths]: the
    working directory, the resolution of every path name and the set of
    directories are the same, every other regular file has its stamp and
    contents, and nothing that existed is gone. *)
Definition only_changed (paths : list string) (w w' : world) : Prop :=
  cwd w' = cwd w ∧
  (∀ p, resolve w' p = resolve w p) ∧
  (∀ p, is_dir (stat w' p) = is_dir (stat w p)) ∧
  (∀ p, (∀ p0, p0 ∈ paths → resolve w p ≠ resolve w p0) →
        stat_file w' p = stat_file w p) ∧
  (∀ p, os_path_exists w p = true → os_path_exists w' p = true).

(** The two odd projects after one run. *)
Definition hollow_after : process :=
  Eval vm_compute in (generate_filelist "proj" "job" hollow).2.

Definition odd_after : process :=
  Eval vm_compute in (generate_filelist "proj" "job" odd).2.

(** A tree as a file system has it: in every directory the names are
    distinct, and each is a single component other than the dot entries. *)
Fixpoint wf_node (n : node) : bool :=
  match n with
  | File _ _ => true
  | Dir _ es =>
      bool_decide (NoDup es.*1) && forallb simple_name es.*1 &&
      (fix go (l : list (string * node)) :=
         match l with
         | [] => true
         | e :: l' => wf_node e.2 && go l'
         end) es
  end.

(** A world as a process finds it: a well-formed tree, and a working
    directory that is a directory of it. *)
Definition wf_world (w : world) : Prop :=
  wf_node (root w) = true ∧
  Forall (λ c, simple_name c = true) (cwd w) ∧
  is_dir (lookup_node (root w) (cwd w)) = true.

(** [r'] is [r] with directories added: what was a directory is one, and
    the regular files are the same. *)
Definition grown (r r' : node) : Prop :=
  (∀ p, is_dir (lookup_node r p) = true → is_dir (lookup_node r' p) = true) ∧
  (∀ p, file_at r' p = file_at r p).

(** The sample project after [main] was asked for a job directory with a
    regular file in the way. *)
Definition in_the_way : list string :=
  ["generate_filelist.py"; "proj"; "fresh/../proj/src/a.v/run"].

(** * Properties *)

(** ** Strings *)

Lemma append_cons x (a b : string) : String x a +:+ b = String x (a +:+ b).
Proof. reflexivity. Qed.

Lemma append_empty_l (b : string) : "" +:+ b = b.
Proof. reflexivity. Qed.

Lemma append_assoc (a b c : string) : (a +:+ b) +:+ c = a +:+ b +:+ c.
Proof.
  induction a as [|x a IH]; [done|]. rewrite !append_cons. by f_equal.
Qed.

Lemma append_empty_r (a : string) : a +:+ "" = a.
Proof. induction a as [|x a IH]; [done|]. rewrite append_cons. by f_equal. Qed.

Lemma rev_app_append s t : String.rev_app s t = String.rev s +:+ t.
Proof.
  unfold String.rev. revert t.
  induction s as [|a s IH]; intros t; simpl; [done|].
  rewrite (IH (String a "")), (IH (String a t)).
  by rewrite append_assoc.
Qed.

Lemma rev_cons x (a : string) : String.rev (String x a) = String.rev a +:+ String x "".
Proof. unfold String.rev at 1. simpl. apply rev_app_append. Qed.

Lemma rev_append (a b : string) :
  String.rev (a +:+ b) = String.rev b +:+ String.rev a.
Proof.
  induction a as [|x a IH].
  - by rewrite append_empty_l, append_empty_r.
  - by rewrite append_cons, !rev_cons, IH, append_assoc.
Qed.

Lemma rev_involutive (a : string) : String.rev (String.rev a) = a.
Proof.
  induction a as [|x a IH]; [done|].
  by rewrite rev_cons, rev_append, IH.
Qed.

(** A string that ends with a non-empty suffix ends with its last
    character. *)
Lemma endswith_last s suf c :
  endswith s (suf +:+ String c "") = true →
  ∃ x, String.rev s = String c x.
Proof.
  unfold endswith. rewrite rev_append.
  change (String.rev (String c "")) with (String c "").
  rewrite append_cons.
  destruct (String.rev s) as [|b x]; simpl; [done|].
  destruct (Ascii.eqb_spec c b) as [->|]; [eauto|done].
Qed.

Lemma endswith_slash a :
  endswith a "/" = true → ∃ a', a = a' +:+ "/".
Proof.
  intros [x Hx]%(endswith_last a "" "/"%char).
  exists (String.rev x).
  by rewrite <-(rev_involutive a), Hx, rev_cons.
Qed.

(** No name carries both a Verilog and an include extension: the former
    end in [v], the latter in [h]. *)
Lemma verilog_not_include filename :
  has_extension verilog_extensions filename = true →
  has_extension include_extensions filename = false.
Proof.
  unfold has_extension, verilog_extensions, include_extensions. simpl.
  rewrite !orb_false_r. intros Hv.
  assert (∃ x, String.rev filename = String "v" x) as [x Hx].
  { apply orb_true_iff in Hv as [H|H].
    - by apply (endswith_last filename ".").
    - by apply (endswith_last filename ".s"). }
  apply orb_false_iff. split.
  - destruct (endswith filename ".vh") eqn:E; [|done].
    apply (endswith_last filename ".v") in E as [y Hy]. congruence.
  - destruct (endswith filename ".svh") eqn:E; [|done].
    apply (endswith_last filename ".sv") in E as [y Hy]. congruence.
Qed.

(** ** Lines of a text file *)

Lemma text_lines_line x rest :
  has_newline x = false →
  text_lines (x +:+ LF +:+ rest) = x :: text_lines rest.
Proof.
  induction x as [|c x IH]; intros H.
  - done.
  - cbn [has_newline] in H. apply orb_false_iff in H as [Hc Hx].
    rewrite append_cons. cbn [text_lines]. by rewrite Hc, (IH Hx).
Qed.

Lemma write_lines_cons x l : write_lines (x :: l) = x +:+ LF +:+ write_lines l.
Proof.
  unfold write_lines. rewrite fmap_cons.
  destruct l as [|y l]; cbn [fmap list_fmap String.concat].
  - by rewrite append_empty_r.
  - by rewrite append_assoc, append_empty_l.
Qed.

(** Paths without a line feed come back as the lines of the file. *)
Lemma text_lines_write_lines l :
  Forall (λ x, has_newline x = false) l → text_lines (write_lines l) = l.
Proof.
  induction 1 as [|x l Hx _ IH]; [done|].
  by rewrite write_lines_cons, text_lines_line, IH.
Qed.

(** ** Path names *)

Lemma split_path_nonempty s : split_path s ≠ [].
Proof.
  destruct s as [|c s]; simpl; [done|].
  destruct (Ascii.eqb c sep); [done|]. by destruct (split_path s).
Qed.

Lemma split_path_sep (a b : string) :
  split_path (a +:+ String sep b) = split_path a ++ split_path b.
Proof.
  induction a as [|c a IH].
  - by rewrite append_empty_l.
  - rewrite append_cons. simpl. rewrite IH.
    destruct (Ascii.eqb c sep); [done|].
    pose proof (split_path_nonempty a). by destruct (split_path a).
Qed.

Lemma simple_name_step c stack :
  simple_name c = true → step_component stack c = c :: stack.
Proof.
  unfold simple_name, step_component.
  intros [_ H%negb_true_iff]%andb_true_iff.
  apply orb_false_iff in H as [[-> ->]%orb_false_iff ->]. done.
Qed.

Lemma simple_name_not_absolute c :
  simple_name c = true → startswith c "/" = false.
Proof.
  unfold simple_name.
  intros [H%bool_decide_eq_true _]%andb_true_iff.
  destruct c as [|x c]; [done|].
  destruct (Ascii.eqb_spec "/" x) as [<-|Hne].
  - simpl in H. discriminate H.
  - cbn [startswith]. apply Ascii.eqb_neq in Hne. by rewrite Hne.
Qed.

Lemma split_path_join job name :
  simple_name name = true →
  ∃ cs, split_path (os_path_join job name) = cs ++ [name].
Proof.
  intros Hn. unfold os_path_join.
  rewrite (simple_name_not_absolute _ Hn).
  assert (split_path name = [name]) as Hs.
  { apply andb_true_iff in Hn as [H _]. by apply bool_decide_eq_true in H. }
  destruct (String.eqb job "") eqn:Ej; simpl.
  { apply String.eqb_eq in Ej as ->. exists []. by rewrite append_empty_l. }
  destruct (endswith job "/") eqn:Ee.
  - apply endswith_slash in Ee as [a ->].
    exists (split_path a).
    rewrite append_assoc. change ("/" +:+ name) with (String sep name).
    by rewrite split_path_sep, Hs.
  - exists (split_path job).
    change ("/" +:+ name) with (String sep name).
    by rewrite split_path_sep, Hs.
Qed.

Lemma resolve_from_snoc r stack cs c q :
  resolve_from r stack (cs ++ [c]) = Some q →
  ∃ stack', q = rev (step_component stack' c).
Proof.
  revert stack. induction cs as [|x cs IH]; intros stack; simpl.
  - destruct (is_dir _); [|done]. intros [= <-]. eauto.
  - destruct (is_dir _); [|done]. apply IH.
Qed.

(** The file [job_path/name] resolves to a place whose last component is
    [name]. *)
Lemma resolve_join_last w job name q :
  simple_name name = true →
  resolve w (os_path_join job name) = Some q →
  last q = Some name.
Proof.
  intros Hn. unfold resolve.
  destruct (String.eqb _ ""); [done|].
  destruct (split_path_join job name Hn) as [cs ->].
  intros [stack' ->]%resolve_from_snoc.
  rewrite (simple_name_step _ _ Hn). simpl. by rewrite last_snoc.
Qed.

(** ** The directory tree under insertion *)

Lemma find_entry_put c x es es' :
  put_entry c x es = Some es' →
  is_dir (find_entry c es) = false ∧
  ∀ c', find_entry c' es' =
        if String.eqb c c' then Some x else find_entry c' es.
Proof.
  revert es'. induction es as [|[n y] es IH]; intros es'; simpl.
  - intros [= <-]. split; [done|]. intros c'. simpl.
    by destruct (String.eqb c c').
  - destruct (String.eqb_spec n c) as [->|Hne].
    + destruct y; [|done]. intros [= <-]. split; [done|].
      intros c'. simpl. by destruct (String.eqb c c').
    + destruct (put_entry c x es) as [es1|]; [|done].
      intros [= <-]. destruct (IH es1 eq_refl) as [Hd Hf].
      split; [done|]. intros c'. simpl. rewrite Hf.
      destruct (String.eqb_spec n c'), (String.eqb_spec c c'); congruence.
Qed.

Lemma find_entry_update c f es es' :
  update_entry c f es = Some es' →
  ∃ y y', find_entry c es = Some y ∧ f y = Some y' ∧
    ∀ c', find_entry c' es' =
          if String.eqb c c' then Some y' else find_entry c' es.
Proof.
  revert es'. induction es as [|[n y] es IH]; intros es'; simpl; [done|].
  destruct (String.eqb_spec n c) as [->|Hne].
  - destruct (f y) as [y'|] eqn:Hf; [|done]. intros [= <-].
    exists y, y'. split_and!; [done..|]. intros c'. simpl.
    by destruct (String.eqb c c').
  - destruct (update_entry c f es) as [es1|]; [|done].
    intros [= <-]. destruct (IH es1 eq_refl) as (y0 & y' & H1 & H2 & H3).
    exists y0, y'. split_and!; [done..|]. intros c'. simpl. rewrite H3.
    destruct (String.eqb_spec n c'), (String.eqb_spec c c'); congruence.
Qed.

(** Where a path stands with respect to the place [q] of an insertion:
    above it, at or below it, or elsewhere. *)
Lemma lookup_insert_node r q x r' p :
  insert_node r q x = Some r' →
  (∃ rest n n', q = p ++ rest ∧ rest ≠ [] ∧
     lookup_node r p = Some n ∧ lookup_node r' p = Some n' ∧
     insert_node n rest x = Some n')
  ∨ (∃ rest, p = q ++ rest ∧
       lookup_node r' p = lookup_node x rest ∧
       is_dir (lookup_node r q) = false)
  ∨ (p ≠ q ∧ lookup_node r' p = lookup_node r p).
Proof.
  revert r r' p. induction q as [|c q IH]; intros r r' p H.
  { by destruct r. }
  destruct r as [|t es]; [by destruct q|].
  destruct p as [|c' p].
  { left. exists (c :: q), (Dir t es), r'. by split_and!. }
  destruct q as [|c2 q]; simpl in H.
  - destruct (put_entry c x es) as [es'|] eqn:Hp; [|done].
    injection H as <-. apply find_entry_put in Hp as [Hd Hf].
    simpl. rewrite Hf.
    destruct (String.eqb_spec c c') as [<-|Hne].
    + right; left. exists p. split_and!; [done..|].
      by destruct (find_entry c es).
    + right; right. split; [congruence|done].
  - destruct (update_entry _ _ es) as [es'|] eqn:Hu; [|done].
    injection H as <-.
    apply find_entry_update in Hu as (y & y' & Hy & Hi & Hf).
    cbn [lookup_node]. rewrite Hf.
    destruct (String.eqb_spec c c') as [<-|Hne].
    + rewrite Hy.
      destruct (IH y y' p Hi) as
        [(rest & n & n' & -> & ? & ? & ? & ?)|[(rest & -> & ? & H0)|[? ?]]].
      * left. exists rest, n, n'. by split_and!.
      * right; left. exists rest. split_and!; [done..|]. exact H0.
      * right; right. split; [congruence|done].
    + right; right. split; [congruence|done].
Qed.

Lemma insert_node_dir n rest x n' :
  insert_node n rest x = Some n' →
  rest ≠ [] ∧ node_is_dir n = true ∧ node_is_dir n' = true.
Proof.
  destruct rest as [|c rest]; [by destruct n|].
  destruct n as [|t es]; [by destruct rest|]. simpl.
  destruct rest.
  - destruct (put_entry c x es); [|done]. by intros [= <-].
  - destruct (update_entry _ _ es); [|done]. by intros [= <-].
Qed.

Lemma lookup_below_file r q rest :
  is_dir (lookup_node r q) = false → rest ≠ [] →
  lookup_node r (q ++ rest) = None.
Proof.
  revert r. induction q as [|c q IH]; intros r; simpl.
  - destruct r; [|done]. by destruct rest.
  - destruct r as [|t es]; [done|].
    destruct (find_entry c es); [apply IH|done].
Qed.

Section write.
Variables (r r' : node) (q : list string) (t : Z) (d : data).
Hypothesis Hins : insert_node r q (File t d) = Some r'.

(** Writing a file neither makes nor removes a directory. *)
Lemma insert_file_is_dir p :
  is_dir (lookup_node r' p) = is_dir (lookup_node r p).
Proof using Hins.
  destruct (lookup_insert_node _ _ _ _ p Hins) as
    [(rest & n & n' & -> & ? & -> & -> & Hi)|[(rest & -> & -> & Hd)|[_ ->]]];
    [|clear Hins|done].
  - apply insert_node_dir in Hi as (_ & ? & ?). by destruct n, n'.
  - destruct rest as [|c rest].
    + by rewrite app_nil_r, Hd.
    + by rewrite lookup_below_file.
Qed.

(** The file written is there; every other file is as it was. *)
Lemma insert_file_at p :
  file_at r' p = if decide (p = q) then Some (t, d) else file_at r p.
Proof using Hins.
  unfold file_at.
  destruct (lookup_insert_node _ _ _ _ p Hins) as
    [(rest & n & n' & -> & ? & -> & -> & Hi)|[(rest & -> & -> & Hd)|[? ->]]].
  - rewrite decide_False.
    2:{ intros E. rewrite <-(app_nil_r p) in E at 1.
        by apply app_inv_head in E. }
    apply insert_node_dir in Hi as (_ & ? & ?). by destruct n, n'.
  - destruct rest as [|c rest].
    + rewrite app_nil_r. by rewrite decide_True.
    + rewrite decide_False.
      2:{ intros E. rewrite <-(app_nil_r q) in E at 2.
          by apply app_inv_head in E. }
      by rewrite lookup_below_file.
  - by rewrite decide_False.
Qed.
End write.

(** Resolution only asks the tree which places are directories. *)
Lemma resolve_from_ext r r' stack cs :
  (∀ p, is_dir (lookup_node r' p) = is_dir (lookup_node r p)) →
  resolve_from r' stack cs = resolve_from r stack cs.
Proof.
  intros H. revert stack. induction cs as [|c cs IH]; intros stack; [done|].
  simpl. rewrite H. by destruct (is_dir _).
Qed.

(** ** The walk under insertion of a file *)

Lemma walk_node_dir top t es :
  walk_node top (Dir t es) =
  (top, dirnames es, filenames es) :: walk_children top es.
Proof.
  reflexivity.
Qed.

Lemma walk_children_cons top n y es :
  walk_children top ((n, y) :: es) =
  walk_node (os_path_join top n) y ++ walk_children top es.
Proof. reflexivity. Qed.

Lemma filenames_cons n y es :
  filenames ((n, y) :: es) =
  if node_is_dir y then filenames es else n :: filenames es.
Proof. unfold filenames. simpl. by destruct (node_is_dir y). Qed.

Lemma view_app P l1 l2 : view P (l1 ++ l2) = view P l1 ++ view P l2.
Proof. apply fmap_app. Qed.

Lemma view_walk_dir P top t es :
  view P (walk_node top (Dir t es)) =
  (top, List.filter P (filenames es)) :: view P (walk_children top es).
Proof. reflexivity. Qed.

Section walk_frame.
Variables (P : string → bool) (name : string) (t : Z) (d : data).
Hypothesis HP : P name = false.

Lemma put_entry_walk top es es' :
  put_entry name (File t d) es = Some es' →
  List.filter P (filenames es') = List.filter P (filenames es) ∧
  walk_children top es' = walk_children top es.
Proof using HP.
  revert es'. induction es as [|[n y] es IH]; intros es'; simpl.
  - intros [= <-]. rewrite filenames_cons. simpl. by rewrite HP.
  - destruct (String.eqb_spec n name) as [->|Hne].
    + destruct y; [|done]. by intros [= <-].
    + destruct (put_entry name _ es) as [es1|]; [|done].
      intros [= <-]. destruct (IH es1 eq_refl) as [Hf Hw].
      rewrite !walk_children_cons, !filenames_cons, Hw.
      destruct (node_is_dir y); simpl; by rewrite Hf.
Qed.

Lemma update_entry_walk c f es es' :
  update_entry c f es = Some es' →
  (∀ y y', f y = Some y' →
     node_is_dir y = true ∧ node_is_dir y' = true ∧
     ∀ top, view P (walk_node top y') = view P (walk_node top y)) →
  filenames es' = filenames es ∧
  ∀ top, view P (walk_children top es') = view P (walk_children top es).
Proof.
  intros Hu Hf. revert es' Hu.
  induction es as [|[n y] es IH]; intros es'; cbn [update_entry]; [done|].
  destruct (String.eqb_spec n c) as [->|Hne].
  - destruct (f y) as [y'|] eqn:Hy; [|done]. intros [= <-].
    destruct (Hf y y' Hy) as (Hd & Hd' & Hv).
    rewrite !filenames_cons, Hd, Hd'. split; [done|]. intros top.
    by rewrite !walk_children_cons, !view_app, Hv.
  - destruct (update_entry c f es) as [es1|]; [|done].
    intros [= <-]. destruct (IH es1 eq_refl) as [Hn Hw].
    rewrite !filenames_cons, Hn. split; [done|]. intros top.
    by rewrite !walk_children_cons, !view_app, Hw.
Qed.

Lemma insert_file_walk rest n n' top :
  insert_node n rest (File t d) = Some n' →
  last rest = Some name →
  view P (walk_node top n') = view P (walk_node top n).
Proof using HP.
  revert n n' top. induction rest as [|c rest IH]; intros n n' top; [done|].
  destruct n as [|t0 es]; [by destruct rest|].
  destruct rest as [|c2 rest]; simpl insert_node.
  - destruct (put_entry c _ es) as [es'|] eqn:Hp; [|done].
    intros [= <-] [= ->].
    destruct (put_entry_walk top _ _ Hp) as [Hf Hw].
    by rewrite !view_walk_dir, Hf, Hw.
  - destruct (update_entry c _ es) as [es'|] eqn:Hu; [|done].
    intros [= <-] Hl.
    apply update_entry_walk in Hu as [Hf Hw].
    + by rewrite !view_walk_dir, Hf, Hw.
    + intros y y' Hi. destruct (insert_node_dir _ _ _ _ Hi) as (_ & ? & ?).
      split_and!; [done..|]. intros top'. by apply IH.
Qed.
End walk_frame.

(** ** The world after [open(p, 'w')] *)

Lemma read_file_stat_file w p : read_file w p = snd <$> stat_file w p.
Proof.
  unfold read_file, stat_file, stat, file_at.
  destruct (resolve w p) as [q|]; simpl; [|done].
  by destruct (lookup_node (root w) q) as [[]|].
Qed.

Lemma exists_dir_or_file w p :
  os_path_exists w p = is_dir (stat w p) || bool_decide (is_Some (stat_file w p)).
Proof.
  unfold os_path_exists, stat_file, stat, file_at.
  destruct (resolve w p) as [q|]; simpl; [|done].
  by destruct (lookup_node (root w) q) as [[]|].
Qed.

Lemma open_w_inv p d w w' :
  open_w p d w = inr w' →
  ∃ q, resolve w p = Some q ∧
       insert_node (root w) q (File (clock w) d) = Some (root w') ∧
       cwd w' = cwd w ∧ clock w' = (clock w + 1)%Z.
Proof.
  unfold open_w. destruct (resolve w p) as [q|]; [|done].
  destruct (is_dir _); [done|].
  destruct (insert_node _ _ _) as [r|] eqn:Hi; [|done].
  intros [= <-]. exists q. simpl. by rewrite Hi.
Qed.

Section after_write.
Variables (w w' : world) (p : string) (d : data) (q : list string).
Hypothesis Hopen : open_w p d w = inr w'.
Hypothesis Hres : resolve w p = Some q.

Lemma after_write_insert :
  insert_node (root w) q (File (clock w) d) = Some (root w') ∧
  cwd w' = cwd w.
Proof using Hopen Hres.
  destruct (open_w_inv _ _ _ _ Hopen) as (q' & Hq & ? & ? & ?).
  rewrite Hres in Hq. by injection Hq as <-.
Qed.

Lemma after_write_resolve p0 : resolve w' p0 = resolve w p0.
Proof using Hopen Hres.
  destruct after_write_insert as [Hi Hc]. unfold resolve. rewrite Hc.
  destruct (String.eqb p0 ""); [done|].
  apply resolve_from_ext. intros. by eapply insert_file_is_dir.
Qed.

Lemma after_write_is_dir p0 : is_dir (stat w' p0) = is_dir (stat w p0).
Proof using Hopen Hres.
  destruct after_write_insert as [Hi Hc]. unfold stat.
  rewrite after_write_resolve.
  destruct (resolve w p0); simpl; [|done]. by eapply insert_file_is_dir.
Qed.

Lemma after_write_stat_file p0 :
  stat_file w' p0 =
  if decide (resolve w p0 = Some q) then Some (clock w, d)
  else stat_file w p0.
Proof using Hopen Hres.
  destruct after_write_insert as [Hi Hc]. unfold stat_file.
  rewrite after_write_resolve.
  destruct (resolve w p0) as [q0|]; simpl.
  - rewrite (insert_file_at _ _ _ _ _ Hi).
    destruct (decide (q0 = q)) as [->|]; [by rewrite decide_True|].
    rewrite decide_False; [done|congruence].
  - done.
Qed.

Lemma after_write_exists p0 :
  os_path_exists w' p0 =
  os_path_exists w p0 || bool_decide (resolve w p0 = Some q).
Proof using Hopen Hres.
  rewrite !exists_dir_or_file, after_write_is_dir, after_write_stat_file.
  case_decide as Hq.
  - rewrite (bool_decide_true (resolve _ _ = _)) by done.
    rewrite (bool_decide_true (is_Some (Some _))) by eauto.
    by rewrite !orb_true_r.
  - rewrite (bool_decide_false (resolve _ _ = _)) by done.
    by rewrite orb_false_r.
Qed.

Lemma after_write_relpath a b :
  os_path_relpath w' a b = os_path_relpath w a b.
Proof using Hopen Hres.
  destruct after_write_insert as [_ Hc].
  unfold os_path_relpath, abspath_parts. by rewrite Hc.
Qed.

(** A scan that filters names by [P] sees the same walk when the file
    written would not pass [P]. *)
Lemma after_write_walk P name top :
  last q = Some name → P name = false →
  view P (os_walk w' top) = view P (os_walk w top).
Proof using Hopen Hres.
  intros Hl HP. destruct after_write_insert as [Hi _].
  unfold os_walk, stat. rewrite after_write_resolve.
  destruct (resolve w top) as [pt|]; simpl; [|done].
  destruct (lookup_insert_node _ _ _ _ pt Hi) as
    [(rest & n & n' & -> & Hne & -> & -> & Hi')
    |[(rest & -> & -> & Hd)|[_ ->]]]; [| |done].
  - eapply insert_file_walk; [done..|].
    rewrite last_app in Hl.
    destruct (last rest) eqn:E; [done|]. by apply last_None in E.
  - destruct rest as [|c rest]; simpl.
    + rewrite app_nil_r.
      by destruct (lookup_node (root w) q) as [[]|].
    + by rewrite lookup_below_file.
Qed.
End after_write.

(** ** Scans are functions of the view *)

Lemma bind_view {A} P (g : string → string → A) l :
  (t ← l; filename ← List.filter P t.2; [g t.1.1 filename]) =
  scan_view g (view P l).
Proof.
  induction l as [|t l IH]; [done|].
  unfold scan_view, view. rewrite fmap_cons, !bind_cons. f_equal. apply IH.
Qed.

Lemma scan_view_ext {A} (g g' : string → string → A) l :
  (∀ a b, g a b = g' a b) → scan_view g l = scan_view g' l.
Proof.
  intros H. unfold scan_view.
  induction l as [|v l IH]; [done|]. rewrite !bind_cons, IH. f_equal.
  induction (v.2) as [|x xs IHx]; [done|]. by rewrite !bind_cons, H, IHx.
Qed.

Lemma existsb_filter {A} (P : A → bool) l :
  existsb P l = nonempty (List.filter P l).
Proof.
  induction l as [|x l IH]; [done|]. simpl. by destruct (P x).
Qed.

Lemma filter_view {A} P (f : string → A) l :
  (λ t, f t.1.1) <$> List.filter (λ t, existsb P t.2) l =
  (λ v, f v.1) <$> List.filter (λ v, nonempty v.2) (view P l).
Proof.
  induction l as [|t l IH]; [done|].
  unfold view. rewrite fmap_cons. cbn [List.filter fst snd].
  rewrite existsb_filter.
  destruct (nonempty _); rewrite ?fmap_cons; by rewrite IH.
Qed.

Lemma relpath_cwd w w' a b :
  cwd w' = cwd w → os_path_relpath w' a b = os_path_relpath w a b.
Proof. intros H. unfold os_path_relpath, abspath_parts. by rewrite H. Qed.

Lemma scan_directory_agree w w' directory extensions relative_to :
  cwd w' = cwd w →
  os_path_exists w' directory = os_path_exists w directory →
  view (has_extension extensions) (os_walk w' directory) =
  view (has_extension extensions) (os_walk w directory) →
  scan_directory w' directory extensions relative_to =
  scan_directory w directory extensions relative_to.
Proof.
  intros Hc He Hv. unfold scan_directory. rewrite He.
  destruct (negb _); [done|].
  rewrite (bind_view _ (λ dirpath filename,
    match relative_to with
    | Some r =>
        if truthy r
        then os_path_relpath w' (os_path_join dirpath filename) r
        else os_path_join dirpath filename
    | None => os_path_join dirpath filename
    end)).
  rewrite (bind_view _ (λ dirpath filename,
    match relative_to with
    | Some r =>
        if truthy r
        then os_path_relpath w (os_path_join dirpath filename) r
        else os_path_join dirpath filename
    | None => os_path_join dirpath filename
    end)).
  rewrite Hv. apply scan_view_ext. intros a b.
  destruct relative_to as [r|]; [|done].
  by rewrite (relpath_cwd _ _ _ _ Hc).
Qed.

(** ** Worlds the script cannot tell apart *)

Lemma scans_agree_refl project_path w : scans_agree project_path w w.
Proof. by split. Qed.

Lemma scans_agree_trans project_path w1 w2 w3 :
  scans_agree project_path w1 w2 → scans_agree project_path w2 w3 →
  scans_agree project_path w1 w3.
Proof.
  intros [Hc1 H1] [Hc2 H2]. split; [congruence|].
  intros sub Hs. destruct (H1 sub Hs) as [He1 Hv1], (H2 sub Hs) as [He2 Hv2].
  split; [congruence|]. intros exts Hx.
  by rewrite (Hv2 exts Hx), (Hv1 exts Hx).
Qed.

Lemma project_dirs_cases sub :
  sub ∈ project_dirs → sub = "src" ∨ sub = "tb" ∨ sub = "include".
Proof. unfold project_dirs. rewrite !elem_of_cons, elem_of_nil. tauto. Qed.

Lemma extension_lists_cases (exts : list string) :
  exts ∈ [verilog_extensions; include_extensions] →
  exts = verilog_extensions ∨ exts = include_extensions.
Proof. rewrite !elem_of_cons, elem_of_nil. tauto. Qed.

Lemma open_w_scans_agree project_path job_path name d w w' :
  harmless name = true →
  open_w (os_path_join job_path name) d w = inr w' →
  scans_agree project_path w w'.
Proof.
  unfold harmless.
  intros [[[Hs Hv%negb_true_iff]%andb_true_iff Hi%negb_true_iff]%andb_true_iff
          Hn%bool_decide_eq_true]%andb_true_iff Hopen.
  destruct (open_w_inv _ _ _ _ Hopen) as (q & Hres & _ & Hc & _).
  pose proof (resolve_join_last _ _ _ _ Hs Hres) as Hl.
  split; [done|]. intros sub Hsub. split.
  - rewrite (after_write_exists _ _ _ _ _ Hopen Hres).
    rewrite bool_decide_false; [by rewrite orb_false_r|].
    intros Hq. apply resolve_join_last in Hq.
    + rewrite Hl in Hq. injection Hq as ->. done.
    + by destruct (project_dirs_cases _ Hsub) as [->|[->| ->]].
  - intros exts Hx.
    apply (after_write_walk _ _ _ _ _ Hopen Hres _ name); [done|].
    by destruct (extension_lists_cases _ Hx) as [->| ->].
Qed.

Lemma project_dirs_elem sub :
  sub = "src" ∨ sub = "tb" ∨ sub = "include" → sub ∈ project_dirs.
Proof. unfold project_dirs. rewrite !elem_of_cons, elem_of_nil. tauto. Qed.

Lemma extension_lists_elem (exts : list string) :
  exts = verilog_extensions ∨ exts = include_extensions →
  exts ∈ [verilog_extensions; include_extensions].
Proof. rewrite !elem_of_cons, elem_of_nil. tauto. Qed.

Section agree.
Variables (project_path job_path : string) (w w' : world).
Hypothesis Hagree : scans_agree project_path w w'.

Lemma scan_src_agree :
  scan_src w' project_path job_path = scan_src w project_path job_path.
Proof using Hagree.
  pose proof Hagree as [Hc Hall].
  destruct (Hall "src") as [He Hv]; [apply project_dirs_elem; auto|].
  unfold scan_src. rewrite He.
  destruct (os_path_exists w _) eqn:E; [|done].
  apply scan_directory_agree; [done|congruence|].
  apply Hv, extension_lists_elem. auto.
Qed.

Lemma scan_tb_agree :
  scan_tb w' project_path job_path = scan_tb w project_path job_path.
Proof using Hagree.
  pose proof Hagree as [Hc Hall].
  destruct (Hall "tb") as [He Hv]; [apply project_dirs_elem; auto|].
  unfold scan_tb. rewrite He.
  destruct (os_path_exists w _) eqn:E; [|done].
  apply scan_directory_agree; [done|congruence|].
  apply Hv, extension_lists_elem. auto.
Qed.

Lemma collect_include_dirs_agree :
  collect_include_dirs w' project_path job_path =
  collect_include_dirs w project_path job_path.
Proof using Hagree.
  unfold collect_include_dirs.
  pose proof Hagree as [Hc Hall].
  destruct (Hall "src") as [He Hv]; [apply project_dirs_elem; auto|].
  destruct (Hall "include") as [He' _]; [apply project_dirs_elem; auto|].
  rewrite He, He'.
  rewrite !(relpath_cwd w w' _ _ Hc).
  f_equal. destruct (os_path_exists w _); [|done]. do 2 f_equal.
  rewrite (filter_view (has_extension include_extensions)
             (λ dirpath, os_path_relpath w' dirpath job_path)).
  rewrite (filter_view (has_extension include_extensions)
             (λ dirpath, os_path_relpath w dirpath job_path)).
  rewrite Hv by (apply extension_lists_elem; auto).
  apply list_fmap_ext. intros _ v _. by apply relpath_cwd.
Qed.
End agree.

(** ** One run of [generate_filelist], step by step *)

Lemma generated_at_of_spec filelist_path s :
  generated_at_of filelist_path s =
  (inr (node_ctime <$> stat (fs s) filelist_path), s).
Proof.
  unfold generated_at_of, mbind, M_bind, get_world, os_path_exists,
    lift_res, os_path_getctime, mret, M_ret.
  by destruct (stat (fs s) filelist_path) as [n|].
Qed.

Lemma generate_filelist_run project_path job_path s r s' :
  generate_filelist project_path job_path s = (inr r, s') →
  r = filelist_f job_path ∧ run project_path job_path s s'.
Proof.
  unfold generate_filelist.
  unfold mbind at 1, M_bind at 1, get_world at 1.
  unfold mbind at 1, M_bind at 1, lift_os at 1.
  destruct (open_w _ _ (fs s)) as [e|w1] eqn:H1; [done|].
  unfold mbind at 1, M_bind at 1, get_world at 1. cbn [fs].
  unfold mbind at 1, M_bind at 1, lift_os at 1. cbn [fs].
  destruct (open_w _ _ w1) as [e|w2] eqn:H2; [done|].
  unfold mbind at 1, M_bind at 1. rewrite generated_at_of_spec. cbn [fs].
  unfold mbind at 1, M_bind at 1, lift_os at 1. cbn [fs].
  destruct (open_w _ _ w2) as [e|w3] eqn:H3; [done|].
  unfold mbind, M_bind, print, mret, M_ret. cbn [fs stdout].
  intros [= <- <-]. split; [done|]. by eapply (Run _ _ _ _ w1 w2).
Qed.

Lemma harmless_filelist : harmless "filelist.f" = true.
Proof. reflexivity. Qed.
Lemma harmless_compile_options : harmless "compile_options.txt" = true.
Proof. reflexivity. Qed.
Lemma harmless_metadata : harmless "project_metadata.json" = true.
Proof. reflexivity. Qed.

Lemma harmless_simple name : harmless name = true → simple_name name = true.
Proof.
  unfold harmless. by intros [[[? _]%andb_true_iff _]%andb_true_iff _]%andb_true_iff.
Qed.

(** Two different names in one directory are two different places. *)
Lemma resolve_join_ne w job_path n1 n2 q :
  simple_name n1 = true → simple_name n2 = true → n1 ≠ n2 →
  resolve w (os_path_join job_path n1) = Some q →
  resolve w (os_path_join job_path n2) ≠ Some q.
Proof.
  intros H1 H2 Hne Hq1 Hq2.
  apply resolve_join_last in Hq1; [|done].
  apply resolve_join_last in Hq2; [|done]. congruence.
Qed.

Lemma stat_file_stat w p t d :
  stat_file w p = Some (t, d) → stat w p = Some (File t d).
Proof.
  unfold stat_file, stat, file_at.
  destruct (resolve w p) as [q|]; simpl; [|done].
  destruct (lookup_node (root w) q) as [[]|]; [|done..]. by intros [= -> ->].
Qed.

(** What the three files hold after a successful run, in terms of the
    world the run started in. *)
Lemma run_files project_path job_path s s' :
  run project_path job_path s s' →
  let w := fs s in
  let src_files := scan_src w project_path job_path in
  let tb_files := scan_tb w project_path job_path in
  let include_dirs := collect_include_dirs w project_path job_path in
  stat_file (fs s') (filelist_f job_path) =
    Some (clock w, Text (filelist_text src_files tb_files)) ∧
  stat_file (fs s') (compile_options_txt job_path) =
    Some ((clock w + 1)%Z, Text (compile_options_text include_dirs)) ∧
  stat_file (fs s') (project_metadata_json job_path) =
    Some ((clock w + 2)%Z,
          Json (metadata project_path job_path src_files tb_files
                  (scan_includes w project_path job_path) include_dirs
                  (Some (clock w)))) ∧
  scans_agree project_path w (fs s').
Proof.
  intros [w1 w2 src_files tb_files include_files include_dirs generated_at
            H1 H2 H3]. cbn zeta.
  destruct (open_w_inv _ _ _ _ H1) as (q1 & Hr1 & _ & _ & Hc1).
  destruct (open_w_inv _ _ _ _ H2) as (q2 & Hr2 & _ & _ & Hc2).
  destruct (open_w_inv _ _ _ _ H3) as (q3 & Hr3 & _ & _ & Hc3).
  pose proof (open_w_scans_agree project_path _ _ _ _ _ harmless_filelist H1)
    as Ha1.
  pose proof (open_w_scans_agree project_path _ _ _ _ _
                harmless_compile_options H2) as Ha2.
  pose proof (open_w_scans_agree project_path _ _ _ _ _ harmless_metadata H3)
    as Ha3.
  assert (stat_file w2 (filelist_f job_path) =
          Some (clock (fs s), Text (filelist_text src_files tb_files))) as Hf2.
  { rewrite (after_write_stat_file _ _ _ _ _ H2 Hr2).
    rewrite decide_False by (by eapply resolve_join_ne; [..|apply Hr2]).
    rewrite (after_write_stat_file _ _ _ _ _ H1 Hr1).
    by rewrite decide_True. }
  assert (include_dirs =
          collect_include_dirs (fs s) project_path job_path) as Hd.
  { by apply collect_include_dirs_agree. }
  assert (generated_at = Some (clock (fs s))) as Hg.
  { unfold generated_at. by rewrite (stat_file_stat _ _ _ _ Hf2). }
  split_and!.
  - rewrite (after_write_stat_file _ _ _ _ _ H3 Hr3).
    by rewrite decide_False by (by eapply resolve_join_ne; [..|apply Hr3]).
  - rewrite (after_write_stat_file _ _ _ _ _ H3 Hr3).
    rewrite decide_False by (by eapply resolve_join_ne; [..|apply Hr3]).
    rewrite (after_write_stat_file _ _ _ _ _ H2 Hr2).
    rewrite decide_True by done. by rewrite Hc1, <-Hd.
  - rewrite (after_write_stat_file _ _ _ _ _ H3 Hr3).
    rewrite decide_True by done. rewrite Hc2, Hc1, <-Hd, Hg.
    do 2 f_equal. lia.
  - eauto using scans_agree_trans.
Qed.

(** ** Scans and discovered files *)

Lemma os_walk_missing w top : os_path_exists w top = false → os_walk w top = [].
Proof.
  unfold os_path_exists, os_walk. intros H%bool_decide_eq_false.
  destruct (stat w top); [|done]. destruct H. eauto.
Qed.

Lemma discovered_fmap {A} w directory extensions (g : string * string → A) :
  g <$> discovered w directory extensions =
  (t ← os_walk w directory;
   filename ← List.filter (has_extension extensions) t.2;
   [g (t.1.1, filename)]).
Proof.
  unfold discovered. induction (os_walk w directory) as [|t l IH]; [done|].
  rewrite !bind_cons, fmap_app, IH. f_equal.
  induction (List.filter _ t.2) as [|x xs IHx]; [done|].
  by rewrite !bind_cons, fmap_app, IHx.
Qed.

Lemma scan_directory_discovered w directory extensions job_path :
  scan_directory w directory extensions (Some job_path) =
  recorded_path w job_path <$> discovered w directory extensions.
Proof.
  rewrite discovered_fmap. unfold scan_directory.
  destruct (os_path_exists w directory) eqn:E; [done|].
  by rewrite os_walk_missing.
Qed.

Lemma scan_src_discovered w project_path job_path :
  scan_src w project_path job_path =
  recorded_path w job_path <$>
    discovered w (os_path_join project_path "src") verilog_extensions.
Proof.
  unfold scan_src. rewrite scan_directory_discovered.
  destruct (os_path_exists w _) eqn:E; [done|].
  unfold discovered. by rewrite os_walk_missing.
Qed.

Lemma scan_tb_discovered w project_path job_path :
  scan_tb w project_path job_path =
  recorded_path w job_path <$>
    discovered w (os_path_join project_path "tb") verilog_extensions.
Proof.
  unfold scan_tb. rewrite scan_directory_discovered.
  destruct (os_path_exists w _) eqn:E; [done|].
  unfold discovered. by rewrite os_walk_missing.
Qed.

(** A discovered file is a file of a walked directory whose name has one
    of the extensions, and each such file is discovered. *)
Lemma elem_of_discovered w directory extensions dirpath filename :
  (dirpath, filename) ∈ discovered w directory extensions ↔
  ∃ dirs files, (dirpath, dirs, files) ∈ os_walk w directory ∧
    filename ∈ files ∧ has_extension extensions filename = true.
Proof.
  unfold discovered. rewrite list_elem_of_bind. split.
  - intros ([[dp dirs] files] & Hin & Ht).
    apply list_elem_of_bind in Hin as (f & Hf & Hfil).
    apply list_elem_of_singleton in Hf. injection Hf as -> ->.
    apply list_elem_of_In, filter_In in Hfil as [Hfil Hext].
    exists dirs, files. split_and!; [done| |done]. by apply list_elem_of_In.
  - intros (dirs & files & Ht & Hfil & Hext).
    exists (dirpath, dirs, files). split; [|done].
    apply list_elem_of_bind. exists filename. split.
    + by apply list_elem_of_singleton.
    + apply list_elem_of_In, filter_In. split; [|done].
      by apply list_elem_of_In.
Qed.

(** ** Sorting *)

Lemma sorted_Sorted l : Sorted String.le (sorted l).
Proof. apply (Sorted_merge_sort String.le). Qed.

Lemma sorted_Permutation l : sorted l ≡ₚ l.
Proof. apply (merge_sort_Permutation String.le). Qed.

(** Whatever algorithm [sorted] runs, this is its result. *)
Lemma sorted_unique l l' :
  Sorted String.le l' → l' ≡ₚ l → l' = sorted l.
Proof.
  intros Hs Hp. apply (Sorted_unique String.le); [done|apply sorted_Sorted|].
  by rewrite Hp, sorted_Permutation.
Qed.

Lemma elem_of_sorted x l : x ∈ sorted l ↔ x ∈ l.
Proof. by rewrite sorted_Permutation. Qed.



(** ** The artefacts of a successful run *)

Lemma read_file_of_stat_file w p t d :
  stat_file w p = Some (t, d) → read_file w p = Some d.
Proof. intros H. by rewrite read_file_stat_file, H. Qed.

Lemma json_field_of_stat_file w p t members key :
  stat_file w p = Some (t, Json (JObject members)) →
  json_field w p key = assoc key members.
Proof.
  intros H. unfold json_field. by rewrite (read_file_of_stat_file _ _ _ _ H).
Qed.

Lemma discovered_verilog_not_include w directory f :
  f ∈ discovered w directory verilog_extensions →
  has_extension verilog_extensions f.2 = true ∧
  has_extension include_extensions f.2 = false.
Proof.
  destruct f as [dirpath filename].
  intros (_ & _ & _ & _ & H)%elem_of_discovered.
  split; [done|]. by apply verilog_not_include.
Qed.

(** C1. After a successful run, [filelist.f] under [job_path] holds
    exactly the discovered Verilog-family files of [src] (names ending in
    [.v] or [.sv]) in lexicographic order, one per line, followed by those
    of [tb] in lexicographic order, one per line; no file written there
    has an include-family name (ending in [.vh] or [.svh]). *)
Theorem filelist_f_contents project_path job_path s r s' :
  generate_filelist project_path job_path s = (inr r, s') →
  let src :=
    discovered (fs s) (os_path_join project_path "src") verilog_extensions in
  let tb :=
    discovered (fs s) (os_path_join project_path "tb") verilog_extensions in
  let src_lines := sorted (recorded_path (fs s) job_path <$> src) in
  let tb_lines := sorted (recorded_path (fs s) job_path <$> tb) in
  read_file (fs s') (os_path_join job_path "filelist.f") =
    Some (Text (write_lines (src_lines ++ tb_lines))) ∧
  (Forall (λ x, has_newline x = false) (src_lines ++ tb_lines) →
   text_lines (write_lines (src_lines ++ tb_lines)) = src_lines ++ tb_lines) ∧
  (Sorted String.le src_lines ∧
   src_lines ≡ₚ recorded_path (fs s) job_path <$> src) ∧
  (Sorted String.le tb_lines ∧
   tb_lines ≡ₚ recorded_path (fs s) job_path <$> tb) ∧
  ∀ f, f ∈ src ++ tb →
    has_extension verilog_extensions f.2 = true ∧
    has_extension include_extensions f.2 = false.
Proof.
  intros [_ Hrun]%generate_filelist_run. cbn zeta.
  destruct (run_files _ _ _ _ Hrun) as (Hf & _). unfold filelist_f in Hf.
  split_and!.
  - rewrite (read_file_of_stat_file _ _ _ _ Hf).
    unfold filelist_text. by rewrite scan_src_discovered, scan_tb_discovered.
  - apply text_lines_write_lines.
  - apply sorted_Sorted.
  - apply sorted_Permutation.
  - apply sorted_Sorted.
  - apply sorted_Permutation.
  - intros f [H|H]%elem_of_app; by eapply discovered_verilog_not_include.
Qed.

Lemma filelist_f_contents_witness :
  generate_filelist "proj" "job" demo = (inr "job/filelist.f", demo_after) ∧
  read_file (fs demo_after) "job/filelist.f" =
    Some (Text (write_lines
                  ["../proj/src/a.v"; "../proj/src/b.sv"; "../proj/src/rtl/c.v";
                   "../proj/tb/top_tb.sv"])).
Proof.
  split; [by vm_compute|].
  apply (filelist_f_contents "proj" "job" demo "job/filelist.f" demo_after).
  by vm_compute.
Defined.

Lemma elem_of_collect_include_dirs w project_path job_path d :
  let src_dir := os_path_join project_path "src" in
  let include_dir := os_path_join project_path "include" in
  d ∈ collect_include_dirs w project_path job_path ↔
    (os_path_exists w src_dir = true ∧
     d = os_path_relpath w src_dir job_path) ∨
    (os_path_exists w include_dir = true ∧
     d = os_path_relpath w include_dir job_path) ∨
    (∃ dirpath subdirs files filename,
       (dirpath, subdirs, files) ∈ os_walk w src_dir ∧
       filename ∈ files ∧
       has_extension include_extensions filename = true ∧
       d = os_path_relpath w dirpath job_path).
Proof.
  cbn zeta. unfold collect_include_dirs.
  assert (d ∈ (list_to_set
            ((λ t, os_path_relpath w t.1.1 job_path) <$>
             List.filter
               (λ t, existsb (has_extension include_extensions) t.2)
               (os_walk w (os_path_join project_path "src"))) : gset string) ↔
          ∃ dirpath subdirs files filename,
            (dirpath, subdirs, files) ∈
              os_walk w (os_path_join project_path "src") ∧
            filename ∈ files ∧
            has_extension include_extensions filename = true ∧
            d = os_path_relpath w dirpath job_path) as Hwalk.
  { rewrite elem_of_list_to_set, list_elem_of_fmap. split.
    - intros ([[dirpath subdirs] files] & -> & Hin).
      apply list_elem_of_In, filter_In in Hin as [Hin Hex].
      apply existsb_exists in Hex as (filename & Hf & Hext).
      exists dirpath, subdirs, files, filename.
      split_and!; [by apply list_elem_of_In|by apply list_elem_of_In|done..].
    - intros (dirpath & subdirs & files & filename & Hin & Hf & Hext & ->).
      exists (dirpath, subdirs, files). split; [done|].
      apply list_elem_of_In, filter_In. split; [by apply list_elem_of_In|].
      apply existsb_exists. exists filename.
      split; [by apply list_elem_of_In|done]. }
  rewrite elem_of_union.
  destruct (os_path_exists w (os_path_join project_path "src")) eqn:Es,
    (os_path_exists w (os_path_join project_path "include")) eqn:Ei;
    rewrite ?elem_of_union, ?elem_of_singleton, ?elem_of_empty, ?Hwalk.
  - naive_solver.
  - naive_solver.
  - rewrite (os_walk_missing _ _ Es). setoid_rewrite elem_of_nil. naive_solver.
  - rewrite (os_walk_missing _ _ Es). setoid_rewrite elem_of_nil. naive_solver.
Qed.



(** C3. [total_files] in [project_metadata.json] is the length of
    [src_files] plus the length of [tb_files]; [include_files] is a
    separate array that is not counted, and no counted file has an
    include-family name. *)
Theorem total_files_counts_sources project_path job_path s r s' :
  generate_filelist project_path job_path s = (inr r, s') →
  let meta := os_path_join job_path "project_metadata.json" in
  let src :=
    discovered (fs s) (os_path_join project_path "src") verilog_extensions in
  let tb :=
    discovered (fs s) (os_path_join project_path "tb") verilog_extensions in
  ∃ src_files tb_files include_files : list string,
    json_field (fs s') meta "src_files" =
      Some (JArray (JString <$> src_files)) ∧
    json_field (fs s') meta "tb_files" =
      Some (JArray (JString <$> tb_files)) ∧
    json_field (fs s') meta "include_files" =
      Some (JArray (JString <$> include_files)) ∧
    json_field (fs s') meta "total_files" =
      Some (JNumber (Z.of_nat (length src_files + length tb_files))) ∧
    src_files = recorded_path (fs s) job_path <$> src ∧
    tb_files = recorded_path (fs s) job_path <$> tb ∧
    ∀ f, f ∈ src ++ tb → has_extension include_extensions f.2 = false.
Proof.
  intros [_ Hrun]%generate_filelist_run. cbn zeta.
  destruct (run_files _ _ _ _ Hrun) as (_ & _ & Hm & _).
  unfold project_metadata_json, metadata in Hm.
  exists (scan_src (fs s) project_path job_path),
    (scan_tb (fs s) project_path job_path),
    (scan_includes (fs s) project_path job_path).
  rewrite !(json_field_of_stat_file _ _ _ _ _ Hm).
  split_and!; [done..|apply scan_src_discovered|apply scan_tb_discovered|].
  intros f [H|H]%elem_of_app; by eapply discovered_verilog_not_include.
Qed.

Lemma total_files_counts_sources_witness :
  generate_filelist "proj" "job" demo = (inr "job/filelist.f", demo_after) ∧
  ∃ src_files tb_files include_files : list string,
    json_field (fs demo_after) "job/project_metadata.json" "include_files" =
      Some (JArray (JString <$> include_files)) ∧
    json_field (fs demo_after) "job/project_metadata.json" "total_files" =
      Some (JNumber (Z.of_nat (length src_files + length tb_files))) ∧
    src_files =
      ["../proj/src/b.sv"; "../proj/src/a.v"; "../proj/src/rtl/c.v"] ∧
    tb_files = ["../proj/tb/top_tb.sv"].
Proof.
  split; [by vm_compute|].
  destruct (total_files_counts_sources "proj" "job" demo "job/filelist.f"
              demo_after)
    as (src & tb & inc & _ & _ & H3 & H4 & H5 & H6 & _); [by vm_compute|].
  exists src, tb, inc. split_and!; [done..| |].
  - rewrite H5. by vm_compute.
  - rewrite H6. by vm_compute.
Defined.

(** C8. ['generated_at'] is the ctime of [filelist.f] when the file can
    be statted and null otherwise; in the metadata a run leaves behind it
    is the ctime [filelist.f] has then. *)
Theorem generated_at_is_ctime :
  (∀ filelist_path s,
     ∃ v, generated_at_of filelist_path s = (inr v, s) ∧
       (os_path_exists (fs s) filelist_path = true →
        ∃ n, stat (fs s) filelist_path = Some n ∧ v = Some (node_ctime n)) ∧
       (os_path_exists (fs s) filelist_path = false → v = None)) ∧
  (∀ project_path job_path s r s',
     generate_filelist project_path job_path s = (inr r, s') →
     json_field (fs s') (os_path_join job_path "project_metadata.json")
       "generated_at" =
     Some (from_option JNumber JNull
             (node_ctime <$>
              stat (fs s') (os_path_join job_path "filelist.f")))).
Proof.
  split.
  - intros filelist_path s. eexists. split; [apply generated_at_of_spec|].
    unfold os_path_exists. destruct (stat (fs s) filelist_path) as [n|].
    + split; [eauto|]. by rewrite bool_decide_true by eauto.
    + split; [|done]. rewrite bool_decide_false; [done|]. by intros [? ?].
  - intros project_path job_path s r s' [_ Hrun]%generate_filelist_run.
    destruct (run_files _ _ _ _ Hrun) as (Hf & _ & Hm & _).
    unfold project_metadata_json, filelist_f, metadata in *.
    rewrite (json_field_of_stat_file _ _ _ _ _ Hm).
    by rewrite (stat_file_stat _ _ _ _ Hf).
Qed.

Lemma generated_at_is_ctime_witness :
  generate_filelist "proj" "job" demo = (inr "job/filelist.f", demo_after) ∧
  json_field (fs demo_after) "job/project_metadata.json" "generated_at" =
    Some (JNumber 10).
Proof.
  split; [by vm_compute|].
  apply (proj2 generated_at_is_ctime "proj" "job" demo "job/filelist.f").
  by vm_compute.
Defined.

(** C9. In the metadata of every successful run ['generated_at'] is a
    number, never null: [filelist.f] has been written by then and is still
    there, and the number is its ctime. *)
Theorem generated_at_never_null project_path job_path s r s' :
  generate_filelist project_path job_path s = (inr r, s') →
  ∃ t d,
    stat (fs s') (os_path_join job_path "filelist.f") = Some (File t d) ∧
    json_field (fs s') (os_path_join job_path "project_metadata.json")
      "generated_at" = Some (JNumber t).
Proof.
  intros [_ Hrun]%generate_filelist_run.
  destruct (run_files _ _ _ _ Hrun) as (Hf & _ & Hm & _).
  unfold project_metadata_json, filelist_f, metadata in *.
  eexists _, _. split; [by apply stat_file_stat|].
  by rewrite (json_field_of_stat_file _ _ _ _ _ Hm).
Qed.

Lemma generated_at_never_null_witness :
  generate_filelist "proj" "job" demo = (inr "job/filelist.f", demo_after) ∧
  ∃ t d,
    stat (fs demo_after) "job/filelist.f" = Some (File t d) ∧
    json_field (fs demo_after) "job/project_metadata.json" "generated_at" =
      Some (JNumber t).
Proof.
  split; [by vm_compute|].
  apply (generated_at_never_null "proj" "job" demo "job/filelist.f").
  by vm_compute.
Defined.



(** C6. When [project_path] does not exist, [main] prints an error, exits
    with status 1 and leaves the file system as it was: none of the three
    output files and no job directory is made. *)
Theorem main_missing_project prog project_path job_path s :
  os_path_exists (fs s) project_path = false →
  main [prog; project_path; job_path] s =
    (1%Z,
     Process (fs s)
       (stdout s ++
        ["Error: Project path '" +:+ project_path +:+ "' does not exist"])).
Proof. intros H. unfold main. by rewrite H. Qed.

Lemma main_missing_project_witness :
  os_path_exists (fs demo) "nowhere" = false ∧
  main ["generate_filelist.py"; "nowhere"; "out"] demo =
    (1%Z,
     Process (fs demo) ["Error: Project path 'nowhere' does not exist"]) ∧
  os_path_exists (fs demo) "out" = false.
Proof.
  split; [by vm_compute|]. split; [|by vm_compute].
  apply (main_missing_project "generate_filelist.py" "nowhere" "out" demo).
  by vm_compute.
Defined.



(** ** When a run succeeds *)

Lemma put_entry_is_Some c x es :
  is_Some (put_entry c x es) ↔ is_dir (find_entry c es) = false.
Proof.
  induction es as [|[n y] es IH]; simpl.
  - split; [done|eauto].
  - destruct (String.eqb n c).
    + destruct y; simpl; [split; eauto|split; [by intros [? ?]|done]].
    + rewrite <-IH. rewrite fmap_is_Some. done.
Qed.

Lemma update_entry_is_Some c f es :
  is_Some (update_entry c f es) ↔
  ∃ y, find_entry c es = Some y ∧ is_Some (f y).
Proof.
  induction es as [|[n y] es IH]; simpl.
  - split; [by intros [? ?]|by intros (? & ? & ?)].
  - destruct (String.eqb n c).
    + split.
      * intros Hs. exists y. split; [done|].
        destruct (f y); [eauto|]. by destruct Hs.
      * intros (y' & [= <-] & [z Hz]). rewrite Hz. simpl. eauto.
    + rewrite <-IH. rewrite fmap_is_Some. done.
Qed.

(** An insertion goes through exactly when the parent is a directory and
    the place itself is not. *)
Lemma insert_node_is_Some r q x :
  is_Some (insert_node r q x) ↔
  q ≠ [] ∧ is_dir (lookup_node r (removelast q)) = true ∧
  is_dir (lookup_node r q) = false.
Proof.
  revert r. induction q as [|c q IH]; intros r.
  { split; [destruct r; by intros [? ?]|by intros [? _]]. }
  destruct r as [t d|t es].
  { split; [destruct q; by intros [? ?]|]. intros (_ & H & _).
    by destruct q. }
  destruct q as [|c2 q].
  - cbn [insert_node removelast lookup_node].
    rewrite fmap_is_Some, put_entry_is_Some.
    destruct (find_entry c es) as [y|]; simpl; naive_solver.
  - change (insert_node (Dir t es) (c :: c2 :: q) x)
      with (Dir t <$> update_entry c (λ y, insert_node y (c2 :: q) x) es).
    rewrite fmap_is_Some, update_entry_is_Some.
    change (removelast (c :: c2 :: q)) with (c :: removelast (c2 :: q)).
    cbn [lookup_node].
    destruct (find_entry c es) as [y|].
    + split.
      * intros (y' & [= <-] & Hs). apply IH in Hs as (_ & ? & ?). done.
      * intros (_ & ? & ?). exists y. split; [done|]. by apply IH.
    + split; [by intros (? & ? & ?)|by intros (_ & ? & _)].
Qed.

Lemma open_w_succeeds p d w :
  (∃ w', open_w p d w = inr w') ↔
  ∃ q, resolve w p = Some q ∧ q ≠ [] ∧
       is_dir (lookup_node (root w) (removelast q)) = true ∧
       is_dir (lookup_node (root w) q) = false.
Proof.
  unfold open_w. destruct (resolve w p) as [q|].
  2:{ split; [by intros [? ?]|by intros (? & ? & _)]. }
  destruct (is_dir (lookup_node (root w) q)) eqn:Ed.
  { split; [by intros [? ?]|]. intros (? & [= <-] & _ & _ & ?). congruence. }
  pose proof (insert_node_is_Some (root w) q (File (clock w) d)) as Hi.
  destruct (insert_node _ _ _) as [r|].
  - split; [|eauto]. intros _. exists q. split; [done|]. apply Hi. eauto.
  - split; [by intros [? ?]|]. intros (? & [= <-] & H).
    apply Hi in H. by destruct H.
Qed.

Lemma can_open_w_spec p d w :
  can_open_w w p = true ↔ ∃ w', open_w p d w = inr w'.
Proof.
  rewrite open_w_succeeds, <-(open_w_succeeds p (Text "")). unfold can_open_w.
  destruct (open_w p (Text "") w); split; eauto; try done. by intros [? ?].
Qed.

Lemma can_open_after_write p0 d w w' p :
  open_w p0 d w = inr w' → can_open_w w' p = can_open_w w p.
Proof.
  intros Hopen.
  destruct (open_w_inv _ _ _ _ Hopen) as (q0 & Hr & Hi & _).
  apply eq_true_iff_eq. rewrite !(can_open_w_spec p (Text "")).
  rewrite !open_w_succeeds.
  rewrite (after_write_resolve _ _ _ _ _ Hopen Hr).
  by setoid_rewrite (insert_file_is_dir _ _ _ _ _ Hi).
Qed.

Lemma generate_filelist_steps project_path job_path s w1 w2 w3 :
  let src_files := scan_src (fs s) project_path job_path in
  let tb_files := scan_tb (fs s) project_path job_path in
  let include_files := scan_includes (fs s) project_path job_path in
  let include_dirs := collect_include_dirs w1 project_path job_path in
  let generated_at := node_ctime <$> stat w2 (filelist_f job_path) in
  open_w (filelist_f job_path)
    (Text (filelist_text src_files tb_files)) (fs s) = inr w1 →
  open_w (compile_options_txt job_path)
    (Text (compile_options_text include_dirs)) w1 = inr w2 →
  open_w (project_metadata_json job_path)
    (Json (metadata project_path job_path src_files tb_files
             include_files include_dirs generated_at)) w2 = inr w3 →
  ∃ out, generate_filelist project_path job_path s =
         (inr (filelist_f job_path), Process w3 (stdout s ++ out)).
Proof.
  cbn zeta. intros H1 H2 H3.
  unfold filelist_f, compile_options_txt, project_metadata_json in *.
  unfold generate_filelist.
  unfold mbind at 1, M_bind at 1, get_world at 1.
  unfold mbind at 1, M_bind at 1, lift_os at 1. rewrite H1.
  unfold mbind at 1, M_bind at 1, get_world at 1. cbn [fs].
  unfold mbind at 1, M_bind at 1, lift_os at 1. cbn [fs]. rewrite H2.
  unfold mbind at 1, M_bind at 1. rewrite generated_at_of_spec. cbn [fs].
  unfold mbind at 1, M_bind at 1, lift_os at 1. cbn [fs]. rewrite H3.
  unfold mbind, M_bind, print, mret, M_ret. cbn [fs stdout].
  rewrite <-app_assoc. eauto.
Qed.

(** A run succeeds exactly when each of the three artefacts can be opened
    for writing in the world it starts in. *)
Lemma generate_filelist_succeeds project_path job_path s :
  (∃ s', generate_filelist project_path job_path s =
         (inr (filelist_f job_path), s')) ↔
  can_open_w (fs s) (filelist_f job_path) = true ∧
  can_open_w (fs s) (compile_options_txt job_path) = true ∧
  can_open_w (fs s) (project_metadata_json job_path) = true.
Proof.
  split.
  - intros [s' [_ Hrun]%generate_filelist_run].
    destruct Hrun as [w1 w2 src_files tb_files include_files include_dirs
                        generated_at H1 H2 H3].
    split_and!.
    + apply (can_open_w_spec _ (Text (filelist_text src_files tb_files))).
      eauto.
    + rewrite <-(can_open_after_write _ _ _ _ _ H1).
      apply (can_open_w_spec _ (Text (compile_options_text include_dirs))).
      eauto.
    + rewrite <-(can_open_after_write _ _ _ _ _ H1).
      rewrite <-(can_open_after_write _ _ _ _ _ H2).
      eapply can_open_w_spec. eauto.
  - intros (C1 & C2 & C3).
    apply (can_open_w_spec _ (Text (filelist_text
             (scan_src (fs s) project_path job_path)
             (scan_tb (fs s) project_path job_path)))) in C1 as [w1 H1].
    rewrite <-(can_open_after_write _ _ _ _ _ H1) in C2.
    rewrite <-(can_open_after_write _ _ _ _ _ H1) in C3.
    apply (can_open_w_spec _ (Text (compile_options_text
             (collect_include_dirs w1 project_path job_path))))
      in C2 as [w2 H2].
    rewrite <-(can_open_after_write _ _ _ _ _ H2) in C3.
    apply (can_open_w_spec _ (Json (metadata project_path job_path
             (scan_src (fs s) project_path job_path)
             (scan_tb (fs s) project_path job_path)
             (scan_includes (fs s) project_path job_path)
             (collect_include_dirs w1 project_path job_path)
             (node_ctime <$> stat w2 (filelist_f job_path)))))
      in C3 as [w3 H3].
    destruct (generate_filelist_steps _ _ _ _ _ _ H1 H2 H3) as [out Hg].
    eauto.
Qed.

Lemma can_open_after_run project_path job_path s s' p :
  run project_path job_path s s' →
  can_open_w (fs s') p = can_open_w (fs s) p.
Proof.
  intros [w1 w2 src_files tb_files include_files include_dirs generated_at
            H1 H2 H3].
  rewrite (can_open_after_write _ _ _ _ _ H3).
  rewrite (can_open_after_write _ _ _ _ _ H2).
  by rewrite (can_open_after_write _ _ _ _ _ H1).
Qed.

(** C4. A second run on the world the first run left behind, with the
    same project and job directory, succeeds as well and leaves
    [filelist.f] and [compile_options.txt] with the contents they had
    after the first run. *)
Theorem generate_twice_same_outputs project_path job_path s r s1 :
  generate_filelist project_path job_path s = (inr r, s1) →
  ∃ s2 filelist options,
    generate_filelist project_path job_path s1 = (inr r, s2) ∧
    read_file (fs s1) (os_path_join job_path "filelist.f") =
      Some (Text filelist) ∧
    read_file (fs s2) (os_path_join job_path "filelist.f") =
      Some (Text filelist) ∧
    read_file (fs s1) (os_path_join job_path "compile_options.txt") =
      Some (Text options) ∧
    read_file (fs s2) (os_path_join job_path "compile_options.txt") =
      Some (Text options).
Proof.
  intros H. pose proof H as [-> Hrun]%generate_filelist_run.
  destruct (proj2 (generate_filelist_succeeds project_path job_path s1))
    as [s2 H2].
  { rewrite !(can_open_after_run _ _ _ _ _ Hrun).
    apply (proj1 (generate_filelist_succeeds project_path job_path s)).
    eauto. }
  pose proof H2 as [_ Hrun2]%generate_filelist_run.
  destruct (run_files _ _ _ _ Hrun) as (Hf1 & Hc1 & _ & Ha).
  destruct (run_files _ _ _ _ Hrun2) as (Hf2 & Hc2 & _ & _).
  rewrite (scan_src_agree _ _ _ _ Ha), (scan_tb_agree _ _ _ _ Ha) in Hf2.
  rewrite (collect_include_dirs_agree _ _ _ _ Ha) in Hc2.
  unfold filelist_f, compile_options_txt in *.
  eexists s2, _, _. split; [done|].
  split_and!; by eapply read_file_of_stat_file.
Qed.

Lemma generate_twice_same_outputs_witness :
  generate_filelist "proj" "job" demo = (inr "job/filelist.f", demo_after) ∧
  ∃ s2 filelist options,
    generate_filelist "proj" "job" demo_after = (inr "job/filelist.f", s2) ∧
    read_file (fs demo_after) "job/filelist.f" = Some (Text filelist) ∧
    read_file (fs s2) "job/filelist.f" = Some (Text filelist) ∧
    read_file (fs demo_after) "job/compile_options.txt" =
      Some (Text options) ∧
    read_file (fs s2) "job/compile_options.txt" = Some (Text options).
Proof.
  split; [by vm_compute|].
  apply (generate_twice_same_outputs "proj" "job" demo "job/filelist.f").
  by vm_compute.
Defined.



(** * Further properties of the script *)

(** ** The shape of a run *)

Lemma open_w_fails p d w :
  can_open_w w p = false → open_w p d w = inl (OSError p).
Proof.
  intros H. destruct (open_w p d w) as [e|w'] eqn:E.
  - revert E. unfold open_w. destruct (resolve w p); [|by intros [= <-]].
    destruct (is_dir _); [by intros [= <-]|].
    destruct (insert_node _ _ _); [done|by intros [= <-]].
  - assert (can_open_w w p = true) as H'; [|congruence].
    apply (can_open_w_spec p d). eauto.
Qed.

(** However a run ends, it is a prefix of the three writes; it prints
    only at the very end. *)
Lemma generate_filelist_cases project_path job_path s :
  let src_files := scan_src (fs s) project_path job_path in
  let tb_files := scan_tb (fs s) project_path job_path in
  let include_files := scan_includes (fs s) project_path job_path in
  generate_filelist project_path job_path s =
  match open_w (filelist_f job_path)
          (Text (filelist_text src_files tb_files)) (fs s) with
  | inl e => (inl e, s)
  | inr w1 =>
      let include_dirs := collect_include_dirs w1 project_path job_path in
      match open_w (compile_options_txt job_path)
              (Text (compile_options_text include_dirs)) w1 with
      | inl e => (inl e, Process w1 (stdout s))
      | inr w2 =>
          match open_w (project_metadata_json job_path)
                  (Json (metadata project_path job_path src_files tb_files
                           include_files include_dirs
                           (node_ctime <$> stat w2 (filelist_f job_path))))
                  w2 with
          | inl e => (inl e, Process w2 (stdout s))
          | inr w3 =>
              (inr (filelist_f job_path),
               Process w3
                 (stdout s ++ summary src_files tb_files include_dirs))
          end
      end
  end.
Proof.
  cbn zeta. unfold filelist_f, compile_options_txt, project_metadata_json.
  unfold generate_filelist.
  unfold mbind at 1, M_bind at 1, get_world at 1.
  unfold mbind at 1, M_bind at 1, lift_os at 1.
  destruct (open_w _ _ (fs s)) as [e|w1]; [done|].
  unfold mbind at 1, M_bind at 1, get_world at 1. cbn [fs].
  unfold mbind at 1, M_bind at 1, lift_os at 1. cbn [fs].
  destruct (open_w _ _ w1) as [e|w2]; [done|].
  unfold mbind at 1, M_bind at 1. rewrite generated_at_of_spec. cbn [fs].
  unfold mbind at 1, M_bind at 1, lift_os at 1. cbn [fs].
  destruct (open_w _ _ w2) as [e|w3]; [done|].
  unfold mbind, M_bind, print, mret, M_ret, summary. cbn [fs stdout].
  by rewrite <-app_assoc.
Qed.

Lemma only_changed_refl paths w : only_changed paths w w.
Proof. by repeat split. Qed.

Lemma only_changed_trans paths w1 w2 w3 :
  only_changed paths w1 w2 → only_changed paths w2 w3 →
  only_changed paths w1 w3.
Proof.
  intros (Hc1 & Hr1 & Hd1 & Hf1 & He1) (Hc2 & Hr2 & Hd2 & Hf2 & He2).
  split_and!.
  - congruence.
  - intros p. by rewrite Hr2.
  - intros p. by rewrite Hd2.
  - intros p Hp. rewrite Hf2; [by apply Hf1|].
    intros p0 Hin. rewrite !Hr1. by apply Hp.
  - eauto.
Qed.

Lemma open_w_only_changed paths p0 d w w' :
  p0 ∈ paths → open_w p0 d w = inr w' → only_changed paths w w'.
Proof.
  intros Hin Hopen.
  destruct (open_w_inv _ _ _ _ Hopen) as (q & Hr & _ & Hc & _).
  split_and!; [done|..].
  - intros p. by eapply after_write_resolve.
  - intros p. by eapply after_write_is_dir.
  - intros p Hp. rewrite (after_write_stat_file _ _ _ _ _ Hopen Hr).
    rewrite decide_False; [done|]. rewrite <-Hr. by apply Hp.
  - intros p He. rewrite (after_write_exists _ _ _ _ _ Hopen Hr), He. done.
Qed.

Lemma scan_includes_agree project_path job_path w w' :
  scans_agree project_path w w' →
  scan_includes w' project_path job_path =
  scan_includes w project_path job_path.
Proof.
  intros [Hc Hall]. unfold scan_includes.
  destruct (Hall "src") as [He Hv]; [apply project_dirs_elem; auto|].
  destruct (Hall "include") as [He' Hv']; [apply project_dirs_elem; auto|].
  rewrite He, He'. f_equal.
  - destruct (os_path_exists w _) eqn:E; [|done].
    apply scan_directory_agree; [done|congruence|].
    apply Hv, extension_lists_elem. auto.
  - destruct (os_path_exists w (os_path_join project_path "include")) eqn:E;
      [|done].
    apply scan_directory_agree; [done|congruence|].
    apply Hv', extension_lists_elem. auto.
Qed.

Lemma startswith_spec s pre :
  startswith s pre = true ↔ ∃ b, s = pre +:+ b.
Proof.
  revert s. induction pre as [|a pre IH]; intros s.
  - split; [|by destruct s]. intros _. by exists s.
  - destruct s as [|c s]; cbn [startswith].
    + split; [done|]. by intros [b Hb].
    + rewrite andb_true_iff, IH. split.
      * intros [->%Ascii.eqb_eq [b ->]]. by exists b.
      * intros [b Hb]. rewrite append_cons in Hb. injection Hb as -> ->.
        split; [apply Ascii.eqb_refl|eauto].
Qed.

Lemma endswith_spec s suf :
  endswith s suf = true ↔ ∃ a, s = a +:+ suf.
Proof.
  unfold endswith. rewrite startswith_spec. split.
  - intros [b Hb]. exists (String.rev b).
    by rewrite <-(rev_involutive s), Hb, rev_append, rev_involutive.
  - intros [a ->]. exists (String.rev a). apply rev_append.
Qed.

(** ** Extension test *)

(** X1. A name passes the extension test of [scan_directory] exactly when
    it is some stem, possibly empty, followed by one of the extensions;
    the test is on the suffix of the name and case is not folded. *)
Theorem has_extension_suffix extensions filename :
  has_extension extensions filename = true ↔
  ∃ ext stem, ext ∈ extensions ∧ filename = stem +:+ ext.
Proof.
  unfold has_extension. rewrite existsb_exists. split.
  - intros (ext & Hin & [stem ->]%endswith_spec).
    exists ext, stem. split; [by apply list_elem_of_In|done].
  - intros (ext & stem & Hin & ->). exists ext.
    split; [by apply list_elem_of_In|]. apply endswith_spec. eauto.
Qed.

(** ** Failing runs *)

(** X2. When [filelist.f] cannot be opened for writing,
    [generate_filelist] raises the error of that [open] and has done
    nothing: the file system and standard output are as before. *)
Theorem generate_filelist_fails_untouched project_path job_path s :
  can_open_w (fs s) (os_path_join job_path "filelist.f") = false →
  generate_filelist project_path job_path s =
    (inl (OSError (os_path_join job_path "filelist.f")), s).
Proof.
  intros H. rewrite generate_filelist_cases. cbn zeta.
  unfold filelist_f. by rewrite (open_w_fails _ _ _ H).
Qed.

Lemma generate_filelist_fails_untouched_witness :
  can_open_w (fs demo) "nowhere/filelist.f" = false ∧
  generate_filelist "proj" "nowhere" demo =
    (inl (OSError "nowhere/filelist.f"), demo).
Proof.
  split; [by vm_compute|].
  apply (generate_filelist_fails_untouched "proj" "nowhere" demo).
  by vm_compute.
Defined.



(** ** What a run leaves alone *)

Lemma generate_filelist_only_changed project_path job_path s res s' :
  generate_filelist project_path job_path s = (res, s') →
  only_changed
    [filelist_f job_path; compile_options_txt job_path;
     project_metadata_json job_path] (fs s) (fs s').
Proof.
  rewrite generate_filelist_cases. cbn zeta.
  destruct (open_w _ _ (fs s)) as [e|w1] eqn:H1.
  { intros [= <- <-]. apply only_changed_refl. }
  apply open_w_only_changed with (paths :=
    [filelist_f job_path; compile_options_txt job_path;
     project_metadata_json job_path]) in H1; [|set_solver].
  destruct (open_w _ _ w1) as [e|w2] eqn:H2.
  { by intros [= <- <-]. }
  apply open_w_only_changed with (paths :=
    [filelist_f job_path; compile_options_txt job_path;
     project_metadata_json job_path]) in H2; [|set_solver].
  destruct (open_w _ _ w2) as [e|w3] eqn:H3.
  { intros [= <- <-]. eauto using only_changed_trans. }
  apply open_w_only_changed with (paths :=
    [filelist_f job_path; compile_options_txt job_path;
     project_metadata_json job_path]) in H3; [|set_solver].
  intros [= <- <-]. eauto using only_changed_trans.
Qed.

(** X4. However a run ends, it has touched nothing but its three
    artefacts: the working directory is the same, no directory is made or
    removed, nothing that existed is gone, and every regular file other
    than the three keeps its stamp and contents. *)
Theorem generate_filelist_touches_only_outputs
    project_path job_path s res s' :
  generate_filelist project_path job_path s = (res, s') →
  let outputs :=
    [os_path_join job_path "filelist.f";
     os_path_join job_path "compile_options.txt";
     os_path_join job_path "project_metadata.json"] in
  cwd (fs s') = cwd (fs s) ∧
  (∀ p, is_dir (stat (fs s') p) = is_dir (stat (fs s) p)) ∧
  (∀ p, os_path_exists (fs s) p = true → os_path_exists (fs s') p = true) ∧
  (∀ p, (∀ p0, p0 ∈ outputs → resolve (fs s) p ≠ resolve (fs s) p0) →
        stat_file (fs s') p = stat_file (fs s) p).
Proof.
  intros (Hc & _ & Hd & Hf & He)%generate_filelist_only_changed.
  by split_and!.
Qed.

Lemma generate_filelist_touches_only_outputs_witness :
  generate_filelist "proj" "job" blocked =
    (inl (OSError "job/compile_options.txt"),
     (generate_filelist "proj" "job" blocked).2) ∧
  stat_file (fs (generate_filelist "proj" "job" blocked).2) "job/notes.txt" =
    Some (3%Z, Text "keep").
Proof.
  split; [by vm_compute|].
  destruct (generate_filelist_touches_only_outputs "proj" "job" blocked
              (inl (OSError "job/compile_options.txt"))
              (generate_filelist "proj" "job" blocked).2)
    as (_ & _ & _ & H); [by vm_compute|].
  rewrite H; [by vm_compute|].
  intros p0 Hin. apply list_elem_of_In in Hin. simpl in Hin.
  destruct Hin as [<-|[<-|[<-|[]]]]; by vm_compute.
Defined.

(** X5. A successful run leaves what a scan discovers as it was: the
    three artefacts are never picked up as sources, testbenches, include
    files or include directories, wherever the job directory lies. *)
Theorem generate_filelist_outputs_not_discovered
    project_path job_path s r s' :
  generate_filelist project_path job_path s = (inr r, s') →
  scan_src (fs s') project_path job_path =
    scan_src (fs s) project_path job_path ∧
  scan_tb (fs s') project_path job_path =
    scan_tb (fs s) project_path job_path ∧
  scan_includes (fs s') project_path job_path =
    scan_includes (fs s) project_path job_path ∧
  collect_include_dirs (fs s') project_path job_path =
    collect_include_dirs (fs s) project_path job_path.
Proof.
  intros [_ Hrun]%generate_filelist_run.
  destruct (run_files _ _ _ _ Hrun) as (_ & _ & _ & Ha).
  split_and!.
  - by apply scan_src_agree.
  - by apply scan_tb_agree.
  - by apply scan_includes_agree.
  - by apply collect_include_dirs_agree.
Qed.

Lemma generate_filelist_outputs_not_discovered_witness :
  generate_filelist "proj" "proj/src" demo =
    (inr "proj/src/filelist.f",
     (generate_filelist "proj" "proj/src" demo).2) ∧
  scan_src (fs (generate_filelist "proj" "proj/src" demo).2) "proj" "proj/src"
    = ["b.sv"; "a.v"; "rtl/c.v"].
Proof.
  split; [by vm_compute|].
  destruct (generate_filelist_outputs_not_discovered "proj" "proj/src" demo
              "proj/src/filelist.f"
              (generate_filelist "proj" "proj/src" demo).2) as (H & _);
    [by vm_compute|].
  rewrite H. by vm_compute.
Defined.

(** ** What a successful run reports *)

Lemma generate_filelist_stdout project_path job_path s r s' :
  generate_filelist project_path job_path s = (inr r, s') →
  stdout s' =
  stdout s ++
  summary (scan_src (fs s) project_path job_path)
    (scan_tb (fs s) project_path job_path)
    (collect_include_dirs (fs s) project_path job_path).
Proof.
  rewrite generate_filelist_cases. cbn zeta.
  destruct (open_w _ _ (fs s)) as [e|w1] eqn:H1; [done|].
  destruct (open_w _ _ w1) as [e|w2] eqn:H2; [done|].
  destruct (open_w _ _ w2) as [e|w3] eqn:H3; [done|].
  intros [= <- <-]. cbn [stdout]. do 2 f_equal.
  apply collect_include_dirs_agree.
  by eapply open_w_scans_agree; [apply harmless_filelist|].
Qed.

Lemma scan_includes_discovered w project_path job_path :
  scan_includes w project_path job_path =
  (recorded_path w job_path <$>
     discovered w (os_path_join project_path "src") include_extensions) ++
  (recorded_path w job_path <$>
     discovered w (os_path_join project_path "include") include_extensions).
Proof.
  unfold scan_includes. rewrite !scan_directory_discovered. f_equal.
  - destruct (os_path_exists w _) eqn:E; [done|].
    unfold discovered. by rewrite os_walk_missing.
  - destruct (os_path_exists w (os_path_join project_path "include")) eqn:E;
      [done|].
    unfold discovered. by rewrite os_walk_missing.
Qed.

(** X6. The two lines a successful run prints agree with what it wrote:
    the counts are the lengths of [src_files] and [tb_files] in the
    metadata, and the include directories are those of
    [compile_options.txt], in the same order, separated by a comma and a
    space. *)
Theorem generate_filelist_summary project_path job_path s r s' :
  generate_filelist project_path job_path s = (inr r, s') →
  let meta := os_path_join job_path "project_metadata.json" in
  ∃ src_files tb_files dirs : list string,
    json_field (fs s') meta "src_files" =
      Some (JArray (JString <$> src_files)) ∧
    json_field (fs s') meta "tb_files" =
      Some (JArray (JString <$> tb_files)) ∧
    read_file (fs s') (os_path_join job_path "compile_options.txt") =
      Some (Text (write_lines ((λ d, "+incdir+" +:+ d) <$> dirs))) ∧
    stdout s' =
      stdout s ++
      ["Generated filelist.f with " +:+ pretty (length src_files) +:+
       " source files and " +:+ pretty (length tb_files) +:+
       " testbench files";
       "Include directories: " +:+ String.concat ", " dirs].
Proof.
  intros H. pose proof (generate_filelist_stdout _ _ _ _ _ H) as Hout.
  apply generate_filelist_run in H as [_ Hrun]. cbn zeta.
  destruct (run_files _ _ _ _ Hrun) as (_ & Hc & Hm & _).
  unfold project_metadata_json, compile_options_txt, metadata in *.
  exists (scan_src (fs s) project_path job_path),
    (scan_tb (fs s) project_path job_path),
    (sorted (elements (collect_include_dirs (fs s) project_path job_path))).
  rewrite !(json_field_of_stat_file _ _ _ _ _ Hm).
  split_and!; [done..| |done].
  exact (read_file_of_stat_file _ _ _ _ Hc).
Qed.

Lemma generate_filelist_summary_witness :
  generate_filelist "proj" "job" demo = (inr "job/filelist.f", demo_after) ∧
  ∃ src_files tb_files dirs : list string,
    json_field (fs demo_after) "job/project_metadata.json" "src_files" =
      Some (JArray (JString <$> src_files)) ∧
    json_field (fs demo_after) "job/project_metadata.json" "tb_files" =
      Some (JArray (JString <$> tb_files)) ∧
    read_file (fs demo_after) "job/compile_options.txt" =
      Some (Text (write_lines ((λ d, "+incdir+" +:+ d) <$> dirs))) ∧
    stdout demo_after =
      stdout demo ++
      ["Generated filelist.f with " +:+ pretty (length src_files) +:+
       " source files and " +:+ pretty (length tb_files) +:+
       " testbench files";
       "Include directories: " +:+ String.concat ", " dirs].
Proof.
  split; [by vm_compute|].
  apply (generate_filelist_summary "proj" "job" demo "job/filelist.f").
  by vm_compute.
Defined.

(** ** The include lists of the metadata *)

(** X7. [include_files] in the metadata lists the include-family files
    found under [src], in traversal order, followed by those found under
    [include]; it is neither sorted nor deduplicated, the [tb] directory
    contributes nothing, and every file listed has a [.vh] or [.svh]
    name. *)
Theorem metadata_include_files project_path job_path s r s' :
  generate_filelist project_path job_path s = (inr r, s') →
  let in_src :=
    discovered (fs s) (os_path_join project_path "src") include_extensions in
  let in_include :=
    discovered (fs s) (os_path_join project_path "include")
      include_extensions in
  json_field (fs s') (os_path_join job_path "project_metadata.json")
    "include_files" =
    Some (JArray (JString <$>
            (recorded_path (fs s) job_path <$> in_src) ++
            (recorded_path (fs s) job_path <$> in_include))) ∧
  ∀ f, f ∈ in_src ++ in_include →
    has_extension include_extensions f.2 = true.
Proof.
  intros [_ Hrun]%generate_filelist_run. cbn zeta.
  destruct (run_files _ _ _ _ Hrun) as (_ & _ & Hm & _).
  unfold project_metadata_json, metadata in *.
  rewrite (json_field_of_stat_file _ _ _ _ _ Hm). split.
  - by rewrite scan_includes_discovered.
  - intros [dirpath filename] [H|H]%elem_of_app;
      by apply elem_of_discovered in H as (_ & _ & _ & _ & ?).
Qed.

Lemma metadata_include_files_witness :
  generate_filelist "proj" "job" demo = (inr "job/filelist.f", demo_after) ∧
  json_field (fs demo_after) "job/project_metadata.json" "include_files" =
    Some (JArray [JString "../proj/src/pkg.svh"; JString "../proj/src/rtl/x.vh";
                  JString "../proj/src/rtl/y.vh";
                  JString "../proj/include/defs.vh"]).
Proof.
  split; [by vm_compute|].
  apply (metadata_include_files "proj" "job" demo "job/filelist.f" demo_after).
  by vm_compute.
Defined.

(** X8. [include_dirs] in the metadata holds the directories of
    [compile_options.txt], each once, in some order of its own. *)
Theorem metadata_include_dirs project_path job_path s r s' :
  generate_filelist project_path job_path s = (inr r, s') →
  ∃ listed dirs : list string,
    json_field (fs s') (os_path_join job_path "project_metadata.json")
      "include_dirs" = Some (JArray (JString <$> listed)) ∧
    read_file (fs s') (os_path_join job_path "compile_options.txt") =
      Some (Text (write_lines ((λ d, "+incdir+" +:+ d) <$> dirs))) ∧
    NoDup listed ∧ listed ≡ₚ dirs.
Proof.
  intros [_ Hrun]%generate_filelist_run.
  destruct (run_files _ _ _ _ Hrun) as (_ & Hc & Hm & _).
  unfold project_metadata_json, compile_options_txt, metadata in *.
  exists (elements (collect_include_dirs (fs s) project_path job_path)),
    (sorted (elements (collect_include_dirs (fs s) project_path job_path))).
  rewrite (json_field_of_stat_file _ _ _ _ _ Hm).
  split_and!; [done| |apply NoDup_elements|by rewrite sorted_Permutation].
  exact (read_file_of_stat_file _ _ _ _ Hc).
Qed.

Lemma metadata_include_dirs_witness :
  generate_filelist "proj" "job" demo = (inr "job/filelist.f", demo_after) ∧
  ∃ listed dirs : list string,
    json_field (fs demo_after) "job/project_metadata.json" "include_dirs" =
      Some (JArray (JString <$> listed)) ∧
    read_file (fs demo_after) "job/compile_options.txt" =
      Some (Text (write_lines ((λ d, "+incdir+" +:+ d) <$> dirs))) ∧
    NoDup listed ∧ listed ≡ₚ dirs.
Proof.
  split; [by vm_compute|].
  apply (metadata_include_dirs "proj" "job" demo "job/filelist.f").
  by vm_compute.
Defined.

(** ** Odd projects *)

(** X9. A project with none of [src], [tb] and [include] is no error: a
    run that gets through writes an empty [filelist.f] and an empty
    [compile_options.txt], and the metadata has [total_files] 0 and four
    empty lists. *)
Theorem empty_project_outputs project_path job_path s r s' :
  os_path_exists (fs s) (os_path_join project_path "src") = false →
  os_path_exists (fs s) (os_path_join project_path "tb") = false →
  os_path_exists (fs s) (os_path_join project_path "include") = false →
  generate_filelist project_path job_path s = (inr r, s') →
  let meta := os_path_join job_path "project_metadata.json" in
  read_file (fs s') (os_path_join job_path "filelist.f") = Some (Text "") ∧
  read_file (fs s') (os_path_join job_path "compile_options.txt") =
    Some (Text "") ∧
  json_field (fs s') meta "total_files" = Some (JNumber 0) ∧
  json_field (fs s') meta "src_files" = Some (JArray []) ∧
  json_field (fs s') meta "tb_files" = Some (JArray []) ∧
  json_field (fs s') meta "include_files" = Some (JArray []) ∧
  json_field (fs s') meta "include_dirs" = Some (JArray []).
Proof.
  intros Es Et Ei [_ Hrun]%generate_filelist_run. cbn zeta.
  destruct (run_files _ _ _ _ Hrun) as (Hf & Hc & Hm & _).
  assert (scan_src (fs s) project_path job_path = []) as Hs.
  { unfold scan_src. by rewrite Es. }
  assert (scan_tb (fs s) project_path job_path = []) as Ht.
  { unfold scan_tb. by rewrite Et. }
  assert (scan_includes (fs s) project_path job_path = []) as Hi.
  { unfold scan_includes. by rewrite Es, Ei. }
  assert (elements (collect_include_dirs (fs s) project_path job_path) = [])
    as Hd.
  { unfold collect_include_dirs. rewrite Es, Ei.
    by rewrite (left_id_L ∅ (∪)), elements_empty. }
  unfold project_metadata_json, compile_options_txt, filelist_f, metadata,
    compile_options_text, filelist_text in *.
  rewrite Hs, Ht in Hf. rewrite Hd in Hc. rewrite Hs, Ht, Hi, Hd in Hm.
  rewrite !(json_field_of_stat_file _ _ _ _ _ Hm).
  split_and!; [|  |done..].
  - exact (read_file_of_stat_file _ _ _ _ Hf).
  - exact (read_file_of_stat_file _ _ _ _ Hc).
Qed.

Lemma empty_project_outputs_witness :
  generate_filelist "proj" "job" hollow = (inr "job/filelist.f", hollow_after) ∧
  read_file (fs hollow_after) "job/filelist.f" = Some (Text "") ∧
  read_file (fs hollow_after) "job/compile_options.txt" = Some (Text "") ∧
  json_field (fs hollow_after) "job/project_metadata.json" "total_files" =
    Some (JNumber 0).
Proof.
  split; [by vm_compute|].
  destruct (empty_project_outputs "proj" "job" hollow "job/filelist.f"
              hollow_after) as (H1 & H2 & H3 & _); [by vm_compute..|].
  by split_and!.
Defined.

(** X10. The script asks whether [src] exists, not whether it is a
    directory. When [src] is a regular file nothing is found in it, so
    [src_files] is empty, and yet [compile_options.txt] has an
    [+incdir+] line for it. *)
Theorem src_regular_file project_path job_path s r s' t d :
  stat (fs s) (os_path_join project_path "src") = Some (File t d) →
  generate_filelist project_path job_path s = (inr r, s') →
  ∃ dirs : list string,
    json_field (fs s') (os_path_join job_path "project_metadata.json")
      "src_files" = Some (JArray []) ∧
    read_file (fs s') (os_path_join job_path "compile_options.txt") =
      Some (Text (write_lines ((λ d, "+incdir+" +:+ d) <$> dirs))) ∧
    os_path_relpath (fs s) (os_path_join project_path "src") job_path ∈ dirs.
Proof.
  intros Hst [_ Hrun]%generate_filelist_run.
  destruct (run_files _ _ _ _ Hrun) as (_ & Hc & Hm & _).
  assert (scan_src (fs s) project_path job_path = []) as Hs.
  { rewrite scan_src_discovered. unfold discovered, os_walk.
    by rewrite Hst. }
  unfold project_metadata_json, compile_options_txt, metadata in *.
  rewrite Hs in Hm.
  exists (sorted (elements (collect_include_dirs (fs s) project_path job_path))).
  rewrite (json_field_of_stat_file _ _ _ _ _ Hm).
  split_and!; [done| |].
  - exact (read_file_of_stat_file _ _ _ _ Hc).
  - rewrite elem_of_sorted, elem_of_elements.
    apply elem_of_collect_include_dirs. left. split; [|done].
    unfold os_path_exists. rewrite Hst. by apply bool_decide_eq_true.
Qed.

Lemma src_regular_file_witness :
  stat (fs odd) "proj/src" = Some (File 1 (Text "")) ∧
  generate_filelist "proj" "job" odd = (inr "job/filelist.f", odd_after) ∧
  ∃ dirs : list string,
    json_field (fs odd_after) "job/project_metadata.json" "src_files" =
      Some (JArray []) ∧
    read_file (fs odd_after) "job/compile_options.txt" =
      Some (Text (write_lines ((λ d, "+incdir+" +:+ d) <$> dirs))) ∧
    "../proj/src" ∈ dirs.
Proof.
  split; [by vm_compute|]. split; [by vm_compute|].
  apply (src_regular_file "proj" "job" odd "job/filelist.f" odd_after
           1%Z (Text "")); by vm_compute.
Defined.

(** ** The process as a whole *)



(** X11. When [main] exits with status 0 there were two positional
    arguments, the project existed, all three artefacts are in the job
    directory as regular files, and the last line printed names
    [filelist.f] under the job directory. *)
Theorem main_success argv s s' :
  main argv s = (0%Z, s') →
  ∃ prog project_path job_path filelist options meta,
    argv = [prog; project_path; job_path] ∧
    os_path_exists (fs s) project_path = true ∧
    read_file (fs s') (os_path_join job_path "filelist.f") =
      Some (Text filelist) ∧
    read_file (fs s') (os_path_join job_path "compile_options.txt") =
      Some (Text options) ∧
    read_file (fs s') (os_path_join job_path "project_metadata.json") =
      Some (Json meta) ∧
    last (stdout s') =
      Some ("Successfully generated: " +:+ os_path_join job_path "filelist.f").
Proof.
  unfold main.
  destruct argv as [|prog [|project_path [|job_path [|? ?]]]]; try done.
  destruct (os_path_exists (fs s) project_path) eqn:Ep; [|done].
  cbn [negb].
  destruct ((if negb (os_path_exists (fs s) job_path)
             then os_makedirs job_path else mret ()) s) as [[e|[]] s1];
    [done|].
  destruct (generate_filelist project_path job_path s1) as [[e|r] s2] eqn:Hg;
    [done|].
  intros [= <-]. cbn [fs stdout].
  apply generate_filelist_run in Hg as [-> Hrun].
  destruct (run_files _ _ _ _ Hrun) as (Hf & Hc & Hm & _).
  unfold filelist_f, compile_options_txt, project_metadata_json, metadata in *.
  eexists prog, project_path, job_path, _, _, _.
  split_and!; [done..| | | |by rewrite last_snoc].
  - exact (read_file_of_stat_file _ _ _ _ Hf).
  - exact (read_file_of_stat_file _ _ _ _ Hc).
  - exact (read_file_of_stat_file _ _ _ _ Hm).
Qed.

Lemma main_success_witness :
  main ["generate_filelist.py"; "proj"; "out/run1"] demo =
    (0%Z, (main ["generate_filelist.py"; "proj"; "out/run1"] demo).2) ∧
  ∃ prog project_path job_path filelist options meta,
    ["generate_filelist.py"; "proj"; "out/run1"] =
      [prog; project_path; job_path] ∧
    os_path_exists (fs demo) project_path = true ∧
    read_file (fs (main ["generate_filelist.py"; "proj"; "out/run1"] demo).2)
      (os_path_join job_path "filelist.f") = Some (Text filelist) ∧
    read_file (fs (main ["generate_filelist.py"; "proj"; "out/run1"] demo).2)
      (os_path_join job_path "compile_options.txt") = Some (Text options) ∧
    read_file (fs (main ["generate_filelist.py"; "proj"; "out/run1"] demo).2)
      (os_path_join job_path "project_metadata.json") = Some (Json meta) ∧
    last (stdout (main ["generate_filelist.py"; "proj"; "out/run1"] demo).2) =
      Some ("Successfully generated: " +:+ os_path_join job_path "filelist.f").
Proof.
  split; [by vm_compute|].
  apply (main_success ["generate_filelist.py"; "proj"; "out/run1"] demo).
  by vm_compute.
Defined.



(** ** Relative paths lead back *)

Lemma split_path_pieces s c : c ∈ split_path s → split_path c = [c].
Proof.
  revert c. induction s as [|a s IH]; intros c; simpl.
  - by intros ->%list_elem_of_singleton.
  - destruct (Ascii.eqb a sep) eqn:Ea.
    + intros [->|H]%elem_of_cons; [done|by apply IH].
    + pose proof (split_path_nonempty s) as Hne.
      destruct (split_path s) as [|x xs]; [done|].
      intros [->|H]%elem_of_cons.
      * simpl. rewrite Ea. rewrite (IH x) by set_solver. done.
      * apply IH. set_solver.
Qed.

Lemma step_component_simple stack c :
  split_path c = [c] →
  Forall (λ x, simple_name x = true) stack →
  Forall (λ x, simple_name x = true) (step_component stack c).
Proof.
  intros Hc Hs. unfold step_component.
  destruct (String.eqb c "" || String.eqb c ".") eqn:E1; [done|].
  destruct (String.eqb c "..") eqn:E2.
  - destruct Hs; [done|]. done.
  - constructor; [|done]. unfold simple_name.
    rewrite bool_decide_true by done.
    apply orb_false_iff in E1 as [-> ->]. by rewrite E2.
Qed.

Lemma foldl_step_simple stack s :
  Forall (λ x, simple_name x = true) stack →
  Forall (λ x, simple_name x = true)
    (foldl step_component stack (split_path s)).
Proof.
  assert (∀ cs stack,
    Forall (λ c, split_path c = [c]) cs →
    Forall (λ x, simple_name x = true) stack →
    Forall (λ x, simple_name x = true) (foldl step_component stack cs)) as H.
  { induction cs as [|c cs IH]; intros st Hcs Hst; [done|].
    inversion_clear Hcs. simpl. apply IH; [done|].
    by apply step_component_simple. }
  intros Hs. apply H; [|done].
  apply Forall_forall. intros c. apply split_path_pieces.
Qed.

Lemma resolve_from_lexical r stack cs q :
  resolve_from r stack cs = Some q → q = rev (foldl step_component stack cs).
Proof.
  revert stack. induction cs as [|c cs IH]; intros stack; simpl.
  - by intros [= <-].
  - destruct (is_dir _); [apply IH|done].
Qed.

Lemma resolve_from_app r stack cs1 cs2 :
  resolve_from r stack (cs1 ++ cs2) =
  q1 ← resolve_from r stack cs1; resolve_from r (rev q1) cs2.
Proof.
  revert stack. induction cs1 as [|c cs1 IH]; intros stack; simpl.
  - by rewrite List.rev_involutive.
  - destruct (is_dir _); [apply IH|done].
Qed.

Lemma is_dir_prefix r a b :
  is_dir (lookup_node r (a ++ b)) = true → is_dir (lookup_node r a) = true.
Proof.
  revert r. induction a as [|c a IH]; intros r; simpl.
  - destruct r as [|t es]; [|done]. by destruct b.
  - destruct r as [|t es]; [done|].
    destruct (find_entry c es); [apply IH|done].
Qed.

(** Every place a resolution passes through is a directory. *)
Lemma resolve_from_above r stack cs q a b :
  resolve_from r stack cs = Some q → cs ≠ [] →
  q = a ++ b → b ≠ [] → is_dir (lookup_node r a) = true.
Proof.
  intros Hres Hcs -> Hb.
  assert (is_dir (lookup_node r (removelast (a ++ b))) = true) as Hp.
  { clear Hb. revert stack Hres Hcs.
    induction cs as [|c cs IH]; intros stack Hres Hcs; [done|]. clear Hcs.
    simpl in Hres.
    destruct (is_dir (lookup_node r (rev stack))) eqn:Ed; [|done].
    destruct cs as [|c2 cs]; [|by eapply IH].
    simpl in Hres. injection Hres as Hq. rewrite <-Hq. clear Hq IH.
    unfold step_component.
    destruct (String.eqb c "" || String.eqb c ".").
    { destruct (rev stack) as [|x l] eqn:El using rev_ind; [done|].
      rewrite removelast_last. by apply is_dir_prefix in Ed. }
    destruct (String.eqb c "..").
    - destruct stack as [|y stack]; simpl in *.
      + done.
      + apply is_dir_prefix in Ed.
        destruct (rev stack) as [|x l] eqn:El using rev_ind; [done|].
        rewrite removelast_last. by apply is_dir_prefix in Ed.
    - simpl. by rewrite removelast_last. }
  rewrite removelast_app in Hp by done. by apply is_dir_prefix in Hp.
Qed.

Lemma resolve_from_up r p l cs :
  is_dir (lookup_node r (p ++ l)) = true →
  resolve_from r (rev (p ++ l)) (replicate (length l) ".." ++ cs) =
  resolve_from r (rev p) cs.
Proof.
  induction l as [|x l IH] using rev_ind; intros Hd.
  - by rewrite app_nil_r.
  - rewrite length_app, Nat.add_comm. cbn [length Nat.add replicate app].
    cbn [resolve_from]. rewrite List.rev_involutive, Hd.
    rewrite app_assoc, rev_unit. cbn [step_component String.eqb Ascii.eqb
      Bool.eqb orb tail].
    change (step_component (x :: rev (p ++ l)) "..") with (rev (p ++ l)).
    apply IH. rewrite app_assoc in Hd. by apply is_dir_prefix in Hd.
Qed.

Lemma resolve_from_down r p names :
  Forall (λ c, simple_name c = true) names →
  (∀ a b, names = a ++ b → b ≠ [] →
          is_dir (lookup_node r (p ++ a)) = true) →
  resolve_from r (rev p) names = Some (p ++ names).
Proof.
  intros Hs. revert p. induction Hs as [|c ns Hc _ IH]; intros p Hd.
  - cbn [resolve_from]. by rewrite List.rev_involutive, app_nil_r.
  - cbn [resolve_from]. rewrite List.rev_involutive.
    assert (is_dir (lookup_node r p) = true) as ->.
    { rewrite <-(app_nil_r p). by apply (Hd [] (c :: ns)). }
    rewrite (simple_name_step _ _ Hc).
    replace (c :: rev p) with (rev (p ++ [c])) by (by rewrite rev_unit).
    rewrite IH.
    + by rewrite <-app_assoc.
    + intros a b -> Hb. rewrite <-app_assoc. by apply (Hd (c :: a) b).
Qed.

Lemma common_prefix_take a b :
  take (common_prefix_len a b) a = take (common_prefix_len a b) b ∧
  (common_prefix_len a b ≤ length a)%nat.
Proof.
  revert b. induction a as [|x a IH]; intros [|y b]; simpl; try done.
  - split; [done|lia].
  - destruct (String.eqb_spec x y) as [->|]; simpl; [|split; [done|lia]].
    destruct (IH b) as [-> ?]. split; [done|lia].
Qed.

Lemma split_join_sep l :
  l ≠ [] → Forall (λ c, split_path c = [c]) l → split_path (join_sep l) = l.
Proof.
  intros Hne Hl. induction Hl as [|c l Hc Hl IH]; [done|]. clear Hne.
  destruct l as [|y l]; [done|].
  change (join_sep (c :: y :: l)) with (c +:+ String sep (join_sep (y :: l))).
  rewrite split_path_sep, Hc, IH; done.
Qed.

Lemma startswith_empty s : startswith s "" = true.
Proof. by destruct s. Qed.

Lemma startswith_slash_append c x t :
  startswith (String c x +:+ t) "/" = startswith (String c x) "/".
Proof.
  rewrite append_cons. cbn [startswith]. by rewrite !startswith_empty.
Qed.

Lemma simple_name_pieces c : simple_name c = true → split_path c = [c].
Proof.
  unfold simple_name. by intros [H%bool_decide_eq_true _]%andb_true_iff.
Qed.

(** The components [os.path.relpath] puts together lead from the place
    [qs] of a directory to the place [q]. *)
Lemma relpath_components r q qs :
  Forall (λ c, simple_name c = true) q →
  (∀ a b, q = a ++ b → b ≠ [] → is_dir (lookup_node r a) = true) →
  is_dir (lookup_node r qs) = true →
  let i := common_prefix_len qs q in
  let rel_list := replicate (length qs - i) ".." ++ drop i q in
  let rel := match rel_list with [] => "." | _ :: _ => join_sep rel_list end in
  rel ≠ "" ∧ startswith rel "/" = false ∧
  resolve_from r (rev qs) (split_path rel) = Some q.
Proof.
  intros Hsimple Habove Hd i rel_list. cbn zeta.
  destruct (common_prefix_take qs q) as [Htake Hle]. fold i in Htake, Hle.
  destruct rel_list as [|c0 rl] eqn:Erel.
  - split_and!; [done..|].
    change (split_path ".") with ["."].
    cbn [resolve_from]. rewrite List.rev_involutive, Hd. f_equal.
    change (step_component (rev qs) ".") with (rev qs).
    rewrite List.rev_involutive.
    apply app_eq_nil in Erel as [Hk Hdrop].
    assert (length qs - i = 0)%nat as Hk0.
    { destruct (length qs - i)%nat; [done|discriminate Hk]. }
    apply drop_nil_inv in Hdrop as Hlen.
    rewrite <-(take_ge qs i), Htake by lia. by apply take_ge.
  - rewrite <-Erel.
    assert (Forall (λ c, split_path c = [c]) rel_list) as Hsep.
    { unfold rel_list. apply Forall_app. split.
      - apply Forall_replicate. done.
      - apply Forall_drop. eapply Forall_impl; [exact Hsimple|].
        intros c. apply simple_name_pieces. }
    assert (startswith c0 "/" = false ∧ c0 ≠ "") as [Hc0 Hne0].
    { assert (c0 = ".." ∨ simple_name c0 = true) as [->|Hc0].
      { unfold rel_list in Erel.
        destruct (length qs - i)%nat; simpl in Erel.
        - right. pose proof (Forall_drop _ i _ Hsimple) as Hdr.
          rewrite Erel in Hdr. by inversion Hdr.
        - left. congruence. }
      - done.
      - split; [by apply simple_name_not_absolute|].
        intros ->. done. }
    assert (∃ a0 x t, join_sep rel_list = String a0 x +:+ t ∧ c0 = String a0 x)
      as (a0 & x & t & Hj & ->).
    { rewrite Erel. destruct c0 as [|a0 x]; [done|].
      destruct rl as [|y rl].
      - exists a0, x, "". by rewrite append_empty_r.
      - by exists a0, x, (String sep (join_sep (y :: rl))). }
    split_and!.
    + rewrite Hj. by rewrite append_cons.
    + by rewrite Hj, startswith_slash_append.
    + rewrite split_join_sep; [|by rewrite Erel|done].
      unfold rel_list.
      rewrite <-(take_drop i qs) at 1.
      replace (length qs - i)%nat with (length (drop i qs))
        by (rewrite length_drop; lia).
      rewrite resolve_from_up by (by rewrite take_drop).
      rewrite Htake, resolve_from_down.
      * by rewrite take_drop.
      * by apply Forall_drop.
      * intros a b Hab Hb. apply (Habove _ b); [|done].
        by rewrite <-app_assoc, <-Hab, take_drop.
Qed.

(** Where [start] is a directory, or is empty and stands for the working
    directory, a relative path computed by [os.path.relpath] and joined
    back to [start] resolves to the place of the original path. *)
Lemma relpath_join_resolve w path start q :
  Forall (λ c, simple_name c = true) (cwd w) →
  is_dir (lookup_node (root w) (cwd w)) = true →
  resolve w path = Some q →
  start = "" ∨ is_dir (stat w start) = true →
  resolve w (os_path_join start (os_path_relpath w path start)) = Some q.
Proof.
  intros Hcwd Hcd Hp Hstart. pose proof Hp as Hp'. unfold resolve in Hp.
  destruct (String.eqb_spec path "") as [|Hpne]; [done|].
  pose proof (resolve_from_lexical _ _ _ _ Hp) as Hq.
  assert (Forall (λ c, simple_name c = true) q) as Hsimple.
  { rewrite Hq. apply Forall_rev, foldl_step_simple.
    destruct (startswith path "/"); [done|]. by apply Forall_rev. }
  assert (∀ a b, q = a ++ b → b ≠ [] →
                 is_dir (lookup_node (root w) a) = true) as Habove.
  { intros a b Hab Hb.
    by eapply (resolve_from_above _ _ _ _ _ b Hp);
      [apply split_path_nonempty|..]. }
  unfold os_path_relpath.
  change (abspath_parts w path) with
    (rev (foldl step_component
            (if startswith path "/" then [] else rev (cwd w))
            (split_path path))).
  rewrite <-Hq.
  destruct Hstart as [->|Hsd].
  - (* relative to the working directory *)
    change (abspath_parts w "") with (rev (rev (cwd w))).
    rewrite List.rev_involutive.
    destruct (relpath_components (root w) q (cwd w) Hsimple Habove Hcd)
      as (Hne & Habs & Hres).
    set (rel := match _ with [] => "." | _ :: _ => _ end) in *.
    unfold os_path_join. rewrite Habs. cbn [String.eqb orb].
    rewrite append_empty_l. unfold resolve.
    destruct (String.eqb_spec rel "") as [|_]; [done|]. by rewrite Habs.
  - unfold stat in Hsd.
    destruct (resolve w start) as [qs|] eqn:Hs; [|done]. cbn in Hsd.
    unfold resolve in Hs.
    destruct (String.eqb_spec start "") as [|Hsne]; [done|].
    pose proof (resolve_from_lexical _ _ _ _ Hs) as Hqs.
    change (abspath_parts w start) with
      (rev (foldl step_component
              (if startswith start "/" then [] else rev (cwd w))
              (split_path start))).
    rewrite <-Hqs.
    destruct (relpath_components (root w) q qs Hsimple Habove Hsd)
      as (Hne & Habs & Hres).
    set (rel := match _ with [] => "." | _ :: _ => _ end) in *.
    assert (∃ cs0, split_path (os_path_join start rel) = cs0 ++ split_path rel ∧
              resolve_from (root w)
                (if startswith start "/" then [] else rev (cwd w)) cs0 =
              Some qs) as (cs0 & Hsplit & Hres0).
    { unfold os_path_join. rewrite Habs.
      destruct (String.eqb_spec start "") as [|_]; [done|]. cbn [orb].
      destruct (endswith start "/") eqn:Ee.
      - apply endswith_slash in Ee as [a ->].
        exists (split_path a). split.
        + rewrite append_assoc. change ("/" +:+ rel) with (String sep rel).
          by rewrite split_path_sep.
        + change (a +:+ "/") with (a +:+ String sep "") in Hs.
          rewrite split_path_sep, resolve_from_app in Hs.
          assert (startswith (a +:+ String sep "") "/" =
                  startswith (a +:+ "/") "/") as Est by done.
          rewrite Est in Hs.
          destruct (resolve_from _ _ (split_path a)) as [qa|]; [|done].
          cbn [mbind option_bind resolve_from split_path] in Hs.
          destruct (is_dir (lookup_node (root w) (rev (rev qa)))); [|done].
          cbn [step_component String.eqb orb] in Hs.
          by rewrite List.rev_involutive in Hs.
      - exists (split_path start). split; [|done].
        change ("/" +:+ rel) with (String sep rel).
        by rewrite split_path_sep. }
    assert (os_path_join start rel ≠ "" ∧
            startswith (os_path_join start rel) "/" = startswith start "/")
      as [Hne' Hst].
    { unfold os_path_join. rewrite Habs.
      destruct start as [|c x]; [done|]. cbn [String.eqb orb].
      destruct (endswith _ _); rewrite startswith_slash_append; done. }
    unfold resolve.
    destruct (String.eqb_spec (os_path_join start rel) "") as [|_]; [done|].
    rewrite Hst, Hsplit, resolve_from_app, Hres0. exact Hres.
Qed.

(** ** Well-formed trees and what a walk yields *)

Lemma node_ind' (P : node → Prop) :
  (∀ t d, P (File t d)) →
  (∀ t es, Forall (λ e, P e.2) es → P (Dir t es)) →
  ∀ n, P n.
Proof.
  intros Hf Hd. fix IH 1. intros [t d|t es]; [apply Hf|]. apply Hd.
  induction es as [|e es IHes]; constructor; [apply IH|apply IHes].
Qed.

Lemma wf_node_dir t es :
  wf_node (Dir t es) = true ↔
  NoDup es.*1 ∧ Forall (λ c, simple_name c = true) es.*1 ∧
  Forall (λ e, wf_node e.2 = true) es.
Proof.
  cbn [wf_node]. rewrite !andb_true_iff, bool_decide_eq_true, forallb_forall.
  rewrite Forall_forall. setoid_rewrite list_elem_of_In.
  assert ((fix go (l : list (string * node)) : bool :=
             match l with
             | [] => true
             | e :: l' => wf_node e.2 && go l'
             end) es = true ↔ Forall (λ e, wf_node e.2 = true) es) as ->.
  { induction es as [|e es IH]; [by split|].
    rewrite andb_true_iff, IH, Forall_cons. done. }
  tauto.
Qed.

Lemma find_entry_NoDup name x es :
  NoDup es.*1 → (name, x) ∈ es → find_entry name es = Some x.
Proof.
  induction es as [|[n y] es IH]; [by intros _ ?%elem_of_nil|].
  rewrite fmap_cons, NoDup_cons. intros [Hn Hnd] [[= -> ->]|Hin]%elem_of_cons.
  - cbn [find_entry]. by rewrite String.eqb_refl.
  - cbn [find_entry]. destruct (String.eqb_spec n name) as [->|]; [|by apply IH].
    destruct Hn. apply list_elem_of_fmap. by exists (name, x).
Qed.

Lemma lookup_node_app r p p' :
  lookup_node r (p ++ p') = n ← lookup_node r p; lookup_node n p'.
Proof.
  revert r. induction p as [|c p IH]; intros r; [done|].
  cbn [app lookup_node]. destruct r as [|t es]; [done|].
  destruct (find_entry c es); [apply IH|done].
Qed.

Lemma find_entry_elem name x es : find_entry name es = Some x → (name, x) ∈ es.
Proof.
  induction es as [|[n y] es IH]; [done|]. cbn [find_entry].
  destruct (String.eqb_spec n name) as [->|].
  - intros [= ->]. left.
  - intros H. right. by apply IH.
Qed.

Lemma lookup_node_wf r p n :
  wf_node r = true → lookup_node r p = Some n → wf_node n = true.
Proof.
  revert r. induction p as [|c p IH]; intros r Hwf; [by intros [= <-]|].
  destruct r as [|t es]; [done|]. cbn [lookup_node].
  destruct (find_entry c es) as [x|] eqn:Hx; [|done].
  apply IH. apply wf_node_dir in Hwf as (_ & _ & Hall).
  rewrite Forall_forall in Hall. by apply (Hall (c, x)), find_entry_elem.
Qed.

Lemma elem_of_filenames name es :
  name ∈ filenames es ↔ ∃ x, (name, x) ∈ es ∧ node_is_dir x = false.
Proof.
  unfold filenames. rewrite list_elem_of_omap. split.
  - intros ([n x] & Hin & H). cbn in H.
    destruct (node_is_dir x) eqn:E; [done|]. injection H as ->. eauto.
  - intros (x & Hin & E). exists (name, x). split; [done|]. cbn. by rewrite E.
Qed.

(** How [posixpath.join] and [split] go together, for a non-empty first
    argument. *)
Lemma split_path_join_cases a b :
  a ≠ "" → startswith b "/" = false →
  os_path_join a b ≠ "" ∧
  startswith (os_path_join a b) "/" = startswith a "/" ∧
  ∃ cs0, split_path (os_path_join a b) = cs0 ++ split_path b ∧
         (split_path a = cs0 ∨ split_path a = cs0 ++ [""]).
Proof.
  intros Ha Hb. unfold os_path_join. rewrite Hb.
  destruct (String.eqb_spec a "") as [|_]; [done|]. cbn [orb].
  destruct a as [|c x]; [done|].
  destruct (endswith (String c x) "/") eqn:Ee.
  - split; [by rewrite append_cons|].
    split; [apply startswith_slash_append|].
    apply endswith_slash in Ee as [a' Ea]. rewrite Ea.
    exists (split_path a'). split.
    + rewrite append_assoc. change ("/" +:+ b) with (String sep b).
      by rewrite split_path_sep.
    + right. change (a' +:+ "/") with (a' +:+ String sep "").
      by rewrite split_path_sep.
  - split; [by rewrite append_cons|].
    split; [apply startswith_slash_append|].
    exists (split_path (String c x)). split; [|by left].
    change ("/" +:+ b) with (String sep b). by rewrite split_path_sep.
Qed.

Lemma resolve_from_trailing r stack cs0 :
  resolve_from r stack (cs0 ++ [""]) =
  q ← resolve_from r stack cs0;
  if is_dir (lookup_node r q) then Some q else None.
Proof.
  rewrite resolve_from_app. destruct (resolve_from r stack cs0) as [q|]; [|done].
  cbn [mbind option_bind resolve_from]. rewrite List.rev_involutive.
  destruct (is_dir _); [|done].
  change (step_component (rev q) "") with (rev q).
  by rewrite List.rev_involutive.
Qed.

Lemma resolve_from_name r stack cs0 name :
  simple_name name = true →
  resolve_from r stack (cs0 ++ [name]) =
  q ← resolve_from r stack cs0;
  if is_dir (lookup_node r q) then Some (q ++ [name]) else None.
Proof.
  intros Hn. rewrite resolve_from_app.
  destruct (resolve_from r stack cs0) as [q|]; [|done].
  cbn [mbind option_bind resolve_from]. rewrite List.rev_involutive.
  destruct (is_dir _); [|done].
  rewrite (simple_name_step _ _ Hn). cbn [rev].
  by rewrite List.rev_involutive.
Qed.

(** A name joined to a directory that resolves is one step further. *)
Lemma resolve_join_child w top name p :
  simple_name name = true →
  resolve w top = Some p → is_dir (lookup_node (root w) p) = true →
  resolve w (os_path_join top name) = Some (p ++ [name]).
Proof.
  intros Hn Hp Hd. unfold resolve in *.
  destruct (String.eqb_spec top "") as [|Hne]; [done|].
  destruct (split_path_join_cases top name Hne
              (simple_name_not_absolute _ Hn)) as (Hj & Hst & cs0 & Hs & Hc).
  destruct (String.eqb_spec (os_path_join top name) "") as [|_]; [done|].
  rewrite Hst, Hs, (simple_name_pieces _ Hn), (resolve_from_name _ _ _ _ Hn).
  destruct Hc as [Hc|Hc]; rewrite Hc in Hp.
  - rewrite Hp. cbn. by rewrite Hd.
  - rewrite resolve_from_trailing in Hp.
    destruct (resolve_from _ _ cs0) as [q|]; [|done]. cbn in *.
    destruct (is_dir (lookup_node (root w) q)) eqn:E; [|done].
    by injection Hp as ->.
Qed.

(** A name joined to a non-empty path resolves only through that path,
    which is then a directory. *)
Lemma resolve_join_parent w job_path name q :
  job_path ≠ "" → simple_name name = true →
  resolve w (os_path_join job_path name) = Some q →
  ∃ qj, resolve w job_path = Some qj ∧
        is_dir (lookup_node (root w) qj) = true ∧ q = qj ++ [name].
Proof.
  intros Hne Hn Hq. unfold resolve in *.
  destruct (split_path_join_cases job_path name Hne
              (simple_name_not_absolute _ Hn)) as (Hj & Hst & cs0 & Hs & Hc).
  destruct (String.eqb_spec (os_path_join job_path name) "") as [|_]; [done|].
  destruct (String.eqb_spec job_path "") as [|_]; [done|].
  rewrite Hst, Hs, (simple_name_pieces _ Hn), (resolve_from_name _ _ _ _ Hn)
    in Hq.
  destruct (resolve_from _ _ cs0) as [qj|] eqn:E0; [|done]. cbn in Hq.
  destruct (is_dir (lookup_node (root w) qj)) eqn:Ed; [|done].
  injection Hq as <-. exists qj. split_and!; [|done..].
  destruct Hc as [-> | ->]; [done|].
  rewrite resolve_from_trailing, E0. cbn. by rewrite Ed.
Qed.

(** Every triple of a walk is a directory of the tree, reached by the
    path the triple gives, with the names that directory has. *)
Lemma walk_node_sound w n :
  wf_node n = true →
  ∀ top p, resolve w top = Some p → lookup_node (root w) p = Some n →
  ∀ t, t ∈ walk_node top n →
  ∃ pd tm es,
    resolve w t.1.1 = Some pd ∧
    lookup_node (root w) pd = Some (Dir tm es) ∧
    wf_node (Dir tm es) = true ∧
    t.1.2 = dirnames es ∧ t.2 = filenames es.
Proof.
  induction n as [tm d|tm es IH] using node_ind'; intros Hwf top p Hp Hl t.
  { by intros ?%elem_of_nil. }
  rewrite walk_node_dir. intros [->|Hin]%elem_of_cons.
  { by exists p, tm, es. }
  unfold walk_children in Hin.
  apply list_elem_of_bind in Hin as ([name x] & Hin & He). cbn in Hin.
  pose proof Hwf as (Hnd & Hsimple & Hall)%wf_node_dir.
  rewrite Forall_forall in IH. rewrite Forall_forall in Hall.
  rewrite Forall_forall in Hsimple.
  apply (IH _ He (Hall _ He) (os_path_join top name) (p ++ [name])); [| |done].
  - apply resolve_join_child; [|done|by rewrite Hl].
    apply Hsimple, list_elem_of_fmap. by exists (name, x).
  - rewrite lookup_node_app, Hl. cbn.
    by rewrite (find_entry_NoDup _ _ _ Hnd He).
Qed.

(** A discovered file is a regular file of the tree, and its name has
    one of the extensions. *)
Lemma discovered_sound w directory extensions f :
  wf_node (root w) = true →
  f ∈ discovered w directory extensions →
  ∃ p tm d,
    resolve w (os_path_join f.1 f.2) = Some p ∧
    lookup_node (root w) p = Some (File tm d) ∧
    last p = Some f.2 ∧
    has_extension extensions f.2 = true.
Proof.
  intros Hwf. destruct f as [dirpath filename].
  intros (dirs & files & Hin & Hf & Hext)%elem_of_discovered.
  unfold os_walk, stat in Hin.
  destruct (resolve w directory) as [p0|] eqn:Hp0; [|by apply elem_of_nil in Hin].
  cbn in Hin.
  destruct (lookup_node (root w) p0) as [n|] eqn:Hl0;
    [|by apply elem_of_nil in Hin].
  destruct (walk_node_sound w n (lookup_node_wf _ _ _ Hwf Hl0) _ _ Hp0 Hl0 _ Hin)
    as (pd & tm & es & Hpd & Hld & Hwd & _ & Hfiles).
  cbn in Hpd, Hfiles. subst files.
  apply elem_of_filenames in Hf as (x & Hx & Hfile).
  apply wf_node_dir in Hwd as (Hnd & Hsimple & _).
  rewrite Forall_forall in Hsimple.
  destruct x as [tf d|]; [|done].
  exists (pd ++ [filename]), tf, d. cbn. split_and!; [| |apply last_snoc|done].
  - apply resolve_join_child; [|done|by rewrite Hld].
    apply Hsimple, list_elem_of_fmap. by exists (filename, File tf d).
  - rewrite lookup_node_app, Hld. cbn.
    by rewrite (find_entry_NoDup _ _ _ Hnd Hx).
Qed.

(** The job directory of a run that got as far as opening [filelist.f]. *)
Lemma job_directory w job_path q :
  resolve w (filelist_f job_path) = Some q →
  job_path = "" ∨ is_dir (stat w job_path) = true.
Proof.
  intros Hq. destruct (String.eqb_spec job_path "") as [|Hne]; [by left|].
  right. apply resolve_join_parent in Hq as (qj & Hj & Hd & _); [|done..].
  unfold stat. by rewrite Hj.
Qed.

(** The path recorded for a file, taken from the job directory, resolves
    to the file. *)
Lemma recorded_path_resolve w job_path f p :
  wf_world w →
  job_path = "" ∨ is_dir (stat w job_path) = true →
  resolve w (os_path_join f.1 f.2) = Some p →
  resolve w (os_path_join job_path (recorded_path w job_path f)) = Some p.
Proof.
  intros (_ & Hcwd & Hcd) Hjob Hp. unfold recorded_path.
  destruct (truthy job_path) eqn:Et.
  - by apply relpath_join_resolve.
  - unfold truthy in Et. apply negb_false_iff, String.eqb_eq in Et as ->.
    unfold os_path_join at 1. cbn [String.eqb orb].
    rewrite append_empty_l. by destruct (startswith _ "/").
Qed.

Lemma os_walk_sound w top t :
  wf_node (root w) = true → t ∈ os_walk w top →
  ∃ pd tm es,
    resolve w t.1.1 = Some pd ∧ lookup_node (root w) pd = Some (Dir tm es).
Proof.
  intros Hwf Hin. unfold os_walk, stat in Hin.
  destruct (resolve w top) as [p0|] eqn:Hp0; [|by apply elem_of_nil in Hin].
  cbn in Hin.
  destruct (lookup_node (root w) p0) as [n|] eqn:Hl0;
    [|by apply elem_of_nil in Hin].
  destruct (walk_node_sound w n (lookup_node_wf _ _ _ Hwf Hl0) _ _ Hp0 Hl0 _ Hin)
    as (pd & tm & es & Hpd & Hld & _). eauto.
Qed.

Lemma exists_resolve w p :
  os_path_exists w p = true ↔
  ∃ q, resolve w p = Some q ∧ is_Some (lookup_node (root w) q).
Proof.
  unfold os_path_exists, stat. rewrite bool_decide_eq_true.
  destruct (resolve w p) as [q|]; cbn.
  - split; [eauto|]. by intros (? & [= <-] & ?).
  - split; [by intros [? ?]|by intros (? & ? & _)].
Qed.

Lemma harmless_no_extension name :
  harmless name = true →
  has_extension verilog_extensions name = false ∧
  has_extension include_extensions name = false.
Proof.
  unfold harmless.
  intros [[[_ Hv%negb_true_iff]%andb_true_iff Hi%negb_true_iff]%andb_true_iff
          _]%andb_true_iff. done.
Qed.

Lemma output_names job_path p0 :
  p0 ∈ [filelist_f job_path; compile_options_txt job_path;
        project_metadata_json job_path] →
  ∃ name, harmless name = true ∧ p0 = os_path_join job_path name.
Proof.
  rewrite !elem_of_cons, elem_of_nil. intros [->|[->|[->|[]]]].
  - by exists "filelist.f".
  - by exists "compile_options.txt".
  - by exists "project_metadata.json".
Qed.

(** ** Entries lead to what they were computed from *)

(** X13. In a well-formed world, every line of [filelist.f], taken as a
    path from the job directory, names a regular file that is there after
    the run: the relative paths the script records lead back to the files
    it found. *)
Theorem filelist_entries_are_files project_path job_path s r s' :
  wf_world (fs s) →
  generate_filelist project_path job_path s = (inr r, s') →
  ∃ lines : list string,
    read_file (fs s') (os_path_join job_path "filelist.f") =
      Some (Text (write_lines lines)) ∧
    ∀ line, line ∈ lines →
      ∃ t d, stat (fs s') (os_path_join job_path line) = Some (File t d).
Proof.
  intros Hwf Hg.
  pose proof (generate_filelist_only_changed _ _ _ _ _ Hg)
    as (_ & _ & _ & Hframe & _).
  apply generate_filelist_run in Hg as [_ Hrun].
  destruct (run_files _ _ _ _ Hrun) as (Hf & _).
  destruct Hrun as [w1 w2 src_files tb_files include_files include_dirs
                      generated_at H1 _ _].
  destruct (open_w_inv _ _ _ _ H1) as (q1 & Hq1 & _).
  pose proof (job_directory _ _ _ Hq1) as Hjob.
  unfold filelist_f, filelist_text in Hf.
  eexists. split; [exact (read_file_of_stat_file _ _ _ _ Hf)|].
  intros line Hline.
  assert (∃ f, f ∈ discovered (fs s) (os_path_join project_path "src")
                     verilog_extensions ++
                   discovered (fs s) (os_path_join project_path "tb")
                     verilog_extensions ∧
               line = recorded_path (fs s) job_path f) as (f & Hin & ->).
  { apply elem_of_app in Hline as [Hl|Hl]; rewrite elem_of_sorted in Hl.
    - rewrite scan_src_discovered in Hl.
      apply list_elem_of_fmap in Hl as (f & -> & Hl).
      exists f. split; [|done]. apply elem_of_app. by left.
    - rewrite scan_tb_discovered in Hl.
      apply list_elem_of_fmap in Hl as (f & -> & Hl).
      exists f. split; [|done]. apply elem_of_app. by right. }
  assert (∃ p tm d,
    resolve (fs s) (os_path_join f.1 f.2) = Some p ∧
    lookup_node (root (fs s)) p = Some (File tm d) ∧
    last p = Some f.2 ∧
    has_extension verilog_extensions f.2 = true) as (p & tm & d & Hp & Hl & Hlast & Hext).
  { destruct Hwf as (Hwf & _).
    apply elem_of_app in Hin as [Hin|Hin]; by eapply discovered_sound. }
  pose proof (recorded_path_resolve _ _ _ _ Hwf Hjob Hp) as Hres.
  exists tm, d. apply stat_file_stat. rewrite Hframe.
  - unfold stat_file, file_at. rewrite Hres. cbn. by rewrite Hl.
  - intros p0 (name & Hname & ->)%output_names. rewrite Hres. intros Heq.
    symmetry in Heq.
    apply resolve_join_last in Heq; [|by apply harmless_simple].
    rewrite Hlast in Heq. injection Heq as Heq. rewrite Heq in Hext.
    apply harmless_no_extension in Hname as [Hv _]. congruence.
Qed.

Lemma filelist_entries_are_files_witness :
  wf_world (fs demo) ∧
  generate_filelist "proj" "job" demo = (inr "job/filelist.f", demo_after) ∧
  ∃ lines : list string,
    read_file (fs demo_after) "job/filelist.f" =
      Some (Text (write_lines lines)) ∧
    ∀ line, line ∈ lines →
      ∃ t d, stat (fs demo_after) (os_path_join "job" line) = Some (File t d).
Proof.
  assert (wf_world (fs demo)) as Hwf.
  { split_and!; [by vm_compute|constructor|by vm_compute]. }
  split; [done|]. split; [by vm_compute|].
  apply (filelist_entries_are_files "proj" "job" demo "job/filelist.f");
    [done|by vm_compute].
Defined.

(** X14. In a well-formed world, every directory on an [+incdir+] line
    of [compile_options.txt], taken as a path from the job directory,
    exists after the run. *)
Theorem include_dirs_exist project_path job_path s r s' :
  wf_world (fs s) →
  generate_filelist project_path job_path s = (inr r, s') →
  ∃ dirs : list string,
    read_file (fs s') (os_path_join job_path "compile_options.txt") =
      Some (Text (write_lines ((λ d, "+incdir+" +:+ d) <$> dirs))) ∧
    ∀ d, d ∈ dirs →
      os_path_exists (fs s') (os_path_join job_path d) = true.
Proof.
  intros Hwf Hg.
  pose proof (generate_filelist_only_changed _ _ _ _ _ Hg)
    as (_ & _ & _ & _ & Hexists).
  apply generate_filelist_run in Hg as [_ Hrun].
  destruct (run_files _ _ _ _ Hrun) as (_ & Hc & _).
  destruct Hrun as [w1 w2 src_files tb_files include_files include_dirs
                      generated_at H1 _ _].
  destruct (open_w_inv _ _ _ _ H1) as (q1 & Hq1 & _).
  pose proof (job_directory _ _ _ Hq1) as Hjob.
  unfold compile_options_txt, compile_options_text in Hc.
  eexists. split; [exact (read_file_of_stat_file _ _ _ _ Hc)|].
  intros d Hd. apply Hexists.
  rewrite elem_of_sorted, elem_of_elements in Hd.
  destruct Hwf as (Hwf & Hcwd & Hcd).
  assert (∃ x q, resolve (fs s) x = Some q ∧
                 is_Some (lookup_node (root (fs s)) q) ∧
                 d = os_path_relpath (fs s) x job_path)
    as (x & q & Hx & Hq & ->).
  { apply elem_of_collect_include_dirs in Hd
      as [[He ->]|[[He ->]|(dirpath & subdirs & files & filename &
                            Hin & _ & _ & ->)]].
    - apply exists_resolve in He as (q & ? & ?). eauto.
    - apply exists_resolve in He as (q & ? & ?). eauto.
    - apply os_walk_sound in Hin as (pd & tm & es & Hpd & Hl); [|done].
      cbn in Hpd. exists dirpath, pd. by rewrite Hl. }
  apply exists_resolve. exists q. split; [|done].
  by apply relpath_join_resolve.
Qed.

Lemma include_dirs_exist_witness :
  wf_world (fs demo) ∧
  generate_filelist "proj" "job" demo = (inr "job/filelist.f", demo_after) ∧
  ∃ dirs : list string,
    read_file (fs demo_after) "job/compile_options.txt" =
      Some (Text (write_lines ((λ d, "+incdir+" +:+ d) <$> dirs))) ∧
    ∀ d, d ∈ dirs →
      os_path_exists (fs demo_after) (os_path_join "job" d) = true.
Proof.
  assert (wf_world (fs demo)) as Hwf.
  { split_and!; [by vm_compute|constructor|by vm_compute]. }
  split; [done|]. split; [by vm_compute|].
  apply (include_dirs_exist "proj" "job" demo "job/filelist.f");
    [done|by vm_compute].
Defined.

(** ** Making the job directory *)

Lemma grown_refl r : grown r r.
Proof. by split. Qed.

Lemma grown_trans r1 r2 r3 : grown r1 r2 → grown r2 r3 → grown r1 r3.
Proof.
  intros [Hd1 Hf1] [Hd2 Hf2]. split; [eauto|].
  intros p. by rewrite Hf2.
Qed.

Lemma lookup_below_missing r q rest :
  lookup_node r q = None → lookup_node r (q ++ rest) = None.
Proof. intros H. by rewrite lookup_node_app, H. Qed.

Lemma insert_dir_grown r q t r' :
  insert_node r q (Dir t []) = Some r' → lookup_node r q = None →
  grown r r' ∧ is_dir (lookup_node r' q) = true.
Proof.
  intros Hi Hq. split; [split|].
  - intros p Hd.
    destruct (lookup_insert_node _ _ _ _ p Hi) as
      [(rest & n & n' & -> & ? & Hn & -> & Hi')|[(rest & -> & _ & _)|[_ ->]]];
      [| |done].
    + apply insert_node_dir in Hi' as (_ & _ & ?). by destruct n'.
    + by rewrite lookup_below_missing in Hd.
  - intros p. unfold file_at.
    destruct (lookup_insert_node _ _ _ _ p Hi) as
      [(rest & n & n' & -> & ? & -> & -> & Hi')|[(rest & -> & -> & _)|[_ ->]]];
      [| |done].
    + apply insert_node_dir in Hi' as (_ & ? & ?). by destruct n, n'.
    + rewrite lookup_below_missing by done. by destruct rest.
  - destruct (lookup_insert_node _ _ _ _ q Hi) as
      [(rest & n & n' & Hq' & Hne & _)|[(rest & Hq' & -> & _)|[? _]]];
      [| |done].
    + rewrite <-(app_nil_r q) in Hq' at 1. apply app_inv_head in Hq'.
      by subst rest.
    + rewrite <-(app_nil_r q) in Hq' at 1. apply app_inv_head in Hq'.
      by subst rest.
Qed.

Lemma makedirs_from_grown now cs r stack :
  grown r (makedirs_from r now stack cs).1.
Proof.
  revert r stack. induction cs as [|c cs IH]; intros r stack.
  { apply grown_refl. }
  cbn [makedirs_from].
  destruct (lookup_node r (rev (step_component stack c))) as [[|]|] eqn:El.
  - apply grown_refl.
  - apply IH.
  - destruct (insert_node _ _ _) as [r1|] eqn:Hi; [|apply grown_refl].
    apply insert_dir_grown in Hi as [Hg _]; [|done].
    eapply grown_trans; [done|apply IH].
Qed.

Lemma makedirs_from_ok now cs r stack :
  is_dir (lookup_node r (rev stack)) = true →
  (makedirs_from r now stack cs).2 = true →
  let r' := (makedirs_from r now stack cs).1 in
  is_dir (lookup_node r' (rev (foldl step_component stack cs))) = true ∧
  resolve_from r' stack cs = Some (rev (foldl step_component stack cs)).
Proof.
  revert r stack. induction cs as [|c cs IH]; intros r stack Hd Hok.
  { done. }
  cbn [makedirs_from foldl resolve_from] in *.
  destruct (lookup_node r (rev (step_component stack c))) as [[|t es]|] eqn:El.
  - done.
  - destruct (IH r (step_component stack c)) as [H1 H2]; [by rewrite El|done|].
    split; [done|].
    destruct (makedirs_from_grown now cs r (step_component stack c)) as [Hg _].
    by rewrite (Hg _ Hd).
  - destruct (insert_node _ _ _) as [r1|] eqn:Hi; [|done].
    apply insert_dir_grown in Hi as [[Hg1 Hf1] Hd1]; [|done].
    destruct (IH r1 (step_component stack c)) as [H1 H2]; [done..|].
    split; [done|].
    destruct (makedirs_from_grown now cs r1 (step_component stack c))
      as [Hg _].
    by rewrite (Hg _ (Hg1 _ Hd)).
Qed.

Lemma resolve_from_grown r r' stack cs q :
  (∀ p, is_dir (lookup_node r p) = true → is_dir (lookup_node r' p) = true) →
  resolve_from r stack cs = Some q → resolve_from r' stack cs = Some q.
Proof.
  intros Hg. revert stack. induction cs as [|c cs IH]; intros stack; [done|].
  cbn [resolve_from]. destruct (is_dir (lookup_node r _)) eqn:Ed; [|done].
  rewrite (Hg _ Ed). apply IH.
Qed.

Lemma is_Some_lookup r p :
  is_Some (lookup_node r p) ↔
  is_dir (lookup_node r p) = true ∨ is_Some (file_at r p).
Proof.
  unfold file_at. destruct (lookup_node r p) as [[]|]; cbn.
  - split; eauto.
  - split; eauto.
  - split; [by intros [? ?]|]. by intros [?|[? ?]].
Qed.

(** After [os.makedirs(p, exist_ok=True)] has got through, [p] is a
    directory, nothing that existed is gone, and no regular file has
    changed. *)
Lemma os_makedirs_ok p s s' :
  is_dir (lookup_node (root (fs s)) (cwd (fs s))) = true →
  os_makedirs p s = (inr (), s') →
  is_dir (stat (fs s') p) = true ∧
  grown (root (fs s)) (root (fs s')) ∧
  cwd (fs s') = cwd (fs s) ∧ stdout s' = stdout s.
Proof.
  intros Hcd. unfold os_makedirs.
  destruct (String.eqb_spec p "") as [|Hne]; [done|].
  set (stack := if startswith p "/" then [] else rev (cwd (fs s))).
  destruct (makedirs_from _ _ stack _).2 eqn:Hok; [|done].
  intros [= <-]. cbn [fs root cwd stdout].
  split_and!; [|apply makedirs_from_grown|done..].
  destruct (makedirs_from_ok (clock (fs s)) (split_path p) (root (fs s)) stack)
    as [H1 H2]; [|done|].
  { unfold stack. destruct (startswith p "/").
    - apply (is_dir_prefix _ [] (cwd (fs s))). done.
    - by rewrite List.rev_involutive. }
  unfold stat, resolve. cbn [root cwd].
  destruct (String.eqb_spec p "") as [|_]; [done|].
  fold stack. rewrite H2. done.
Qed.

Lemma exists_grown w w' p :
  cwd w' = cwd w → grown (root w) (root w') →
  os_path_exists w p = true → os_path_exists w' p = true.
Proof.
  intros Hc [Hg Hf]. rewrite !exists_resolve. intros (q & Hq & Hs).
  exists q. split.
  - unfold resolve in *. rewrite Hc.
    destruct (String.eqb p ""); [done|]. by eapply resolve_from_grown.
  - apply is_Some_lookup. apply is_Some_lookup in Hs as [?|?]; [left; eauto|].
    right. by rewrite Hf.
Qed.

Lemma is_dir_grown w w' p :
  cwd w' = cwd w → grown (root w) (root w') →
  is_dir (stat w p) = true → is_dir (stat w' p) = true.
Proof.
  intros Hc [Hg _]. unfold stat, resolve. rewrite Hc.
  destruct (String.eqb p ""); [done|].
  destruct (resolve_from (root w) _ _) as [q|] eqn:Hq; [|done].
  rewrite (resolve_from_grown _ _ _ _ _ Hg Hq). cbn. apply Hg.
Qed.

(** X15. When the job directory is missing and [os.makedirs] gets
    through, the job directory is a directory when [main] returns,
    whatever the exit status, and everything that existed before still
    exists. *)
Theorem main_makes_job_directory prog project_path job_path s s1 :
  is_dir (lookup_node (root (fs s)) (cwd (fs s))) = true →
  os_path_exists (fs s) project_path = true →
  os_path_exists (fs s) job_path = false →
  os_makedirs job_path s = (inr (), s1) →
  let s' := (main [prog; project_path; job_path] s).2 in
  is_dir (stat (fs s') job_path) = true ∧
  ∀ p, os_path_exists (fs s) p = true → os_path_exists (fs s') p = true.
Proof.
  intros Hcd Ep Ej Hm. cbn zeta. unfold main. rewrite Ep, Ej. cbn [negb].
  rewrite Hm.
  destruct (os_makedirs_ok _ _ _ Hcd Hm) as (Hd & Hg & Hc & _).
  destruct (generate_filelist project_path job_path s1) as [res s2] eqn:Hgen.
  apply generate_filelist_only_changed in Hgen as (_ & _ & Hd2 & _ & He2).
  assert (is_dir (stat (fs s2) job_path) = true ∧
          ∀ p, os_path_exists (fs s) p = true →
               os_path_exists (fs s2) p = true) as H.
  { split; [by rewrite Hd2|]. intros p He. apply He2. by eapply exists_grown. }
  by destruct res.
Qed.

Lemma main_makes_job_directory_witness :
  is_dir (lookup_node (root (fs demo)) (cwd (fs demo))) = true ∧
  os_path_exists (fs demo) "proj" = true ∧
  os_path_exists (fs demo) "out/run1" = false ∧
  is_dir (stat (fs (main ["generate_filelist.py"; "proj"; "out/run1"] demo).2)
            "out/run1") = true.
Proof.
  split; [by vm_compute|]. split; [by vm_compute|]. split; [by vm_compute|].
  apply (main_makes_job_directory "generate_filelist.py" "proj" "out/run1"
           demo (os_makedirs "out/run1" demo).2); by vm_compute.
Defined.

(** X16. Running the script a second time with the same arguments, on
    the world the first run left, exits with status 0 again and leaves
    [filelist.f] and [compile_options.txt] with the same contents; the
    second run finds the job directory and makes nothing. *)
Theorem main_twice_same_outputs argv s s1 :
  main argv s = (0%Z, s1) →
  ∃ prog project_path job_path s2 filelist options,
    argv = [prog; project_path; job_path] ∧
    os_path_exists (fs s1) job_path = true ∧
    main argv s1 = (0%Z, s2) ∧
    read_file (fs s1) (os_path_join job_path "filelist.f") =
      Some (Text filelist) ∧
    read_file (fs s2) (os_path_join job_path "filelist.f") =
      Some (Text filelist) ∧
    read_file (fs s1) (os_path_join job_path "compile_options.txt") =
      Some (Text options) ∧
    read_file (fs s2) (os_path_join job_path "compile_options.txt") =
      Some (Text options).
Proof.
  unfold main at 1.
  destruct argv as [|prog [|project_path [|job_path [|? ?]]]]; try done.
  destruct (os_path_exists (fs s) project_path) eqn:Ep; [|done].
  cbn [negb].
  destruct ((if negb (os_path_exists (fs s) job_path)
             then os_makedirs job_path else mret ()) s) as [[e|[]] s0] eqn:Hmk;
    [done|].
  destruct (generate_filelist project_path job_path s0) as [[e|r] s2'] eqn:Hg;
    [done|].
  intros [= <-].
  (* the first run *)
  pose proof Hg as [-> Hrun]%generate_filelist_run.
  pose proof (generate_filelist_only_changed _ _ _ _ _ Hg)
    as (_ & _ & _ & _ & Hexists).
  destruct (run_files _ _ _ _ Hrun) as (Hf1 & Hc1 & _ & Ha).
  (* the project is still there, and the job directory is *)
  assert (job_path ≠ "") as Hjob.
  { intros ->.
    assert (os_path_exists (fs s) "" = false) as E by reflexivity.
    rewrite E in Hmk. cbn [negb] in Hmk. unfold os_makedirs in Hmk.
    cbn [String.eqb] in Hmk. done. }
  assert (os_path_exists (fs s0) project_path = true) as Ep0.
  { destruct (os_path_exists (fs s) job_path).
    - cbn in Hmk. by injection Hmk as <-.
    - cbn [negb] in Hmk. unfold os_makedirs in Hmk.
      destruct (String.eqb job_path ""); [done|].
      destruct (makedirs_from _ _ _ _).2 eqn:Hok; [|done].
      injection Hmk as <-. eapply exists_grown; [..|exact Ep]; [done|].
      apply makedirs_from_grown. }
  assert (os_path_exists (fs s2') job_path = true) as Ej.
  { pose proof (stat_file_stat _ _ _ _ Hf1) as Hst. unfold stat in Hst.
    destruct (resolve (fs s2') (filelist_f job_path)) as [q|] eqn:Hq; [|done].
    apply resolve_join_parent in Hq as (qj & Hqj & Hd & _); [|done..].
    apply exists_resolve. exists qj. split; [done|].
    by destruct (lookup_node (root (fs s2')) qj). }
  (* the second run *)
  destruct (proj2 (generate_filelist_succeeds project_path job_path
              (Process (fs s2')
                 (stdout s2' ++
                  ["Successfully generated: " +:+ filelist_f job_path]))))
    as [s3 Hg2].
  { cbn [fs]. rewrite !(can_open_after_run _ _ _ _ _ Hrun).
    apply (proj1 (generate_filelist_succeeds project_path job_path s0)).
    eauto. }
  pose proof Hg2 as [_ Hrun2]%generate_filelist_run.
  destruct (run_files _ _ _ _ Hrun2) as (Hf2 & Hc2 & _ & _).
  cbn [fs] in Hf2, Hc2.
  rewrite (scan_src_agree _ _ _ _ Ha), (scan_tb_agree _ _ _ _ Ha) in Hf2.
  rewrite (collect_include_dirs_agree _ _ _ _ Ha) in Hc2.
  unfold filelist_f, compile_options_txt in *.
  eexists prog, project_path, job_path, _, _, _.
  split; [done|]. split; [exact Ej|]. split.
  - unfold main. cbn [fs]. rewrite (Hexists _ Ep0), Ej. cbn [negb].
    unfold mret at 1, M_ret at 1. by rewrite Hg2.
  - cbn [fs]. split_and!; by eapply read_file_of_stat_file.
Qed.

Lemma main_twice_same_outputs_witness :
  main ["generate_filelist.py"; "proj"; "out/run1"] demo =
    (0%Z, (main ["generate_filelist.py"; "proj"; "out/run1"] demo).2) ∧
  ∃ prog project_path job_path s2 filelist options,
    ["generate_filelist.py"; "proj"; "out/run1"] =
      [prog; project_path; job_path] ∧
    os_path_exists
      (fs (main ["generate_filelist.py"; "proj"; "out/run1"] demo).2)
      job_path = true ∧
    main ["generate_filelist.py"; "proj"; "out/run1"]
      (main ["generate_filelist.py"; "proj"; "out/run1"] demo).2 = (0%Z, s2) ∧
    read_file (fs (main ["generate_filelist.py"; "proj"; "out/run1"] demo).2)
      (os_path_join job_path "filelist.f") = Some (Text filelist) ∧
    read_file (fs s2) (os_path_join job_path "filelist.f") =
      Some (Text filelist) ∧
    read_file (fs (main ["generate_filelist.py"; "proj"; "out/run1"] demo).2)
      (os_path_join job_path "compile_options.txt") = Some (Text options) ∧
    read_file (fs s2) (os_path_join job_path "compile_options.txt") =
      Some (Text options).
Proof.
  split; [by vm_compute|].
  apply (main_twice_same_outputs ["generate_filelist.py"; "proj"; "out/run1"]
           demo).
  by vm_compute.
Defined.

(** X17. When the job directory is missing and [os.makedirs] raises, the
    exception is not caught: [main] exits with status 1, prints nothing
    on standard output and writes no artefact. Directories made before
    the failure stay, and every regular file is as it was. *)
Theorem main_makedirs_failure prog project_path job_path s e s1 :
  os_path_exists (fs s) project_path = true →
  os_path_exists (fs s) job_path = false →
  os_makedirs job_path s = (inl e, s1) →
  main [prog; project_path; job_path] s = (1%Z, s1) ∧
  stdout s1 = stdout s ∧
  grown (root (fs s)) (root (fs s1)).
Proof.
  intros Ep Ej Hm. unfold main. rewrite Ep, Ej. cbn [negb]. rewrite Hm.
  split; [done|]. unfold os_makedirs in Hm.
  destruct (String.eqb job_path "").
  { injection Hm as _ <-. split; [done|apply grown_refl]. }
  injection Hm as _ <-. cbn [stdout fs root]. split; [done|].
  apply makedirs_from_grown.
Qed.

Lemma main_makedirs_failure_witness :
  os_path_exists (fs demo) "proj" = true ∧
  os_path_exists (fs demo) "fresh/../proj/src/a.v/run" = false ∧
  main in_the_way demo = (1%Z, (main in_the_way demo).2) ∧
  stdout (main in_the_way demo).2 = [] ∧
  os_path_exists (fs (main in_the_way demo).2) "fresh" = true ∧
  grown (root (fs demo)) (root (fs (main in_the_way demo).2)).
Proof.
  split; [by vm_compute|]. split; [by vm_compute|].
  destruct (main_makedirs_failure "generate_filelist.py" "proj"
              "fresh/../proj/src/a.v/run" demo
              (OSError "fresh/../proj/src/a.v/run") (main in_the_way demo).2)
    as (H1 & H2 & H3); [by vm_compute..|].
  split; [exact H1|]. split; [exact H2|]. split; [by vm_compute|exact H3].
Defined.
